(** * Magnitude sparsity: threshold selection and mask engine

    A shallow embedding of [nncf/torch/sparsity/magnitude/algo.py]
    ([MagnitudeSparsityController]) together with the properties its
    specification states about it.

    Modelling conventions.
    - Tensor elements, importance scores, thresholds and sparsity levels are
      exact rationals ([Q]).  Comparisons, sorting and [abs] are exact on
      finite floating-point values, so they behave on [Q] as in the source;
      the one rounding step of the source, the double-precision product
      [(size - 1) * sparsity_level], is taken as the exact product.  NaN and
      infinities are outside the model.
    - Python objects that are shared and mutated (the [SparseModuleInfo]
      entries with their operands) live in an object store indexed by
      references; the controller and its callers hold references.
    - A method is a function from the machine state to an outcome and a new
      machine state; a raised exception is an outcome [inl e] and keeps the
      state reached when it was raised. *)

From Stdlib Require Import String.
From Stdlib Require Import QArith Qround Qabs ZArith List Bool Lia.
From Stdlib Require Import Permutation Sorted Orders Mergesort RelationClasses.
Import ListNotations.

Local Open Scope Q_scope.

(* ================================================================== *)
(** ** Scalars *)

(** The comparison [x < y] of two scalars, as a boolean. *)
Definition Qlt_bool (x y : Q) : bool := negb (Qle_bool y x).

(** Python's [int(x)] on a finite real: truncation toward zero. *)
Definition int_of_Q (x : Q) : Z := Z.quot (Qnum x) (Zpos (Qden x)).



(* ================================================================== *)
(** ** Tensors *)

(** A tensor: its shape and its elements in row-major order. *)
Record Tensor : Type := mkTensor {
  shape : list nat;
  data : list Q
}.

(** [t.view(-1)]: the elements as a 1-D sequence. *)
Definition view_flat (t : Tensor) : list Q := data t.

(** [torch.cat] of 1-D tensors. *)
Definition torch_cat (ts : list (list Q)) : list Q := concat ts.

(** The order used by [Tensor.sort()]: ascending on the values. *)
Module QOrder <: TotalLeBool.
Definition t := Q.
Definition leb := Qle_bool.
Theorem leb_total : forall x y, leb x y = true \/ leb y x = true.
Proof.
  intros x y. unfold leb. rewrite !Qle_bool_iff.
  destruct (Qlt_le_dec x y) as [H | H]; [left; apply Qlt_le_weak, H | right; exact H].
Qed.
End QOrder.

Module QSort := Sort QOrder.

(** [values, _ = t.sort()]: the values in ascending order. *)
Definition tensor_sort (t : list Q) : list Q := QSort.sort t.

(* ================================================================== *)
(** ** Exceptions and outcomes *)

Inductive message : Type :=
  | SparsityLevelOutOfInterval (actual : Q)
    (* 'Sparsity level should be within interval [0,1), actual value to set is: {}' *)
  | NoneTypeHasNoAttribute (attr : string).

Inductive exn : Type :=
  | AttributeError (m : message)
  | IndexError
  | KeyError (key : string)
  | Raised (name : string).   (* an exception raised by an external collaborator *)

Definition Result (A : Type) : Type := (exn + A)%type.

(** [t[i]] on a 1-D tensor with a Python integer index: negative indices
    count from the end, and an index outside [-size, size) raises. *)
Definition tensor_getitem (t : list Q) (i : Z) : Result Q :=
  let size := Z.of_nat (length t) in
  let j := if (i <? 0)%Z then (i + size)%Z else i in
  if ((0 <=? j)%Z && (j <? size)%Z)%bool
  then match nth_error t (Z.to_nat j) with
       | Some v => inr v
       | None => inl IndexError
       end
  else inl IndexError.

(* ================================================================== *)
(** ** Layers and the object store *)

(** The wrapped layer: the core reads its weight and never writes it. *)
Record NNCFModule : Type := mkModule {
  weight : Tensor
}.

(** The mask operand of a layer ([nncf.torch.sparsity.layers.BinaryMask]). *)
Record BinaryMask : Type := mkBinaryMask {
  binary_mask : Tensor;
  frozen : bool
}.

Record SparseModuleInfo : Type := mkSparseModuleInfo {
  module_name : string;
  module : NNCFModule;
  operand : BinaryMask
}.

(** Object identity of a [SparseModuleInfo]. *)
Definition ref : Type := nat.

(** The store of layer objects: what each reference denotes.  A Python
    reference always denotes an object, so the store is total. *)
Definition Heap : Type := ref -> SparseModuleInfo.

Definition store (h : Heap) (r : ref) (v : SparseModuleInfo) : Heap :=
  fun r' => if Nat.eqb r' r then v else h r'.

(** [layer.operand.binary_mask = m] *)
Definition assign_binary_mask (layer : SparseModuleInfo) (m : Tensor) : SparseModuleInfo :=
  {| module_name := module_name layer;
     module := module layer;
     operand := {| binary_mask := m; frozen := frozen (operand layer) |} |}.

(** [layer.operand.frozen = b] *)
Definition assign_frozen (layer : SparseModuleInfo) (b : bool) : SparseModuleInfo :=
  {| module_name := module_name layer;
     module := module layer;
     operand := {| binary_mask := binary_mask (operand layer); frozen := b |} |}.

(** Modelled from the spec: [calc_magnitude_binary_mask] of
    [nncf/torch/sparsity/magnitude/functions.py], which is not part of the
    sources at hand.  Section 4.3: for each element,
    [mask[i] = 1 if importance_fn(weight)[i] > threshold else 0]. *)
Definition calc_magnitude_binary_mask
    (w : Tensor) (weight_importance : Tensor -> Tensor) (threshold : Q) : Tensor :=
  let scores := weight_importance w in
  {| shape := shape scores;
     data := map (fun s => if Qlt_bool threshold s then 1 else 0) (data scores) |}.

(* ================================================================== *)
(** ** Configuration, scheduler, stages, statistics *)

(** The ['params'] dictionary: the keys this controller reads or writes. *)
Record Params : Type := mkParams {
  weight_importance : option string;
  sparsity_level_setting_mode : option string;
  schedule : option string;
  params_sparsity_init : option Q
}.

(** The configuration: the keys ['params'] and ['sparsity_init']. *)
Record Config : Type := mkConfig {
  cfg_params : option Params;
  cfg_sparsity_init : option Q
}.

(** [d.get(key, default)] *)
Definition dict_get {A : Type} (entry : option A) (default : A) : A :=
  match entry with
  | Some v => v
  | None => default
  end.

(** [{}] *)
Definition empty_params : Params :=
  {| weight_importance := None; sparsity_level_setting_mode := None;
     schedule := None; params_sparsity_init := None |}.

(** [params['sparsity_init'] = v] *)
Definition params_set_sparsity_init (p : Params) (v : Q) : Params :=
  {| weight_importance := weight_importance p;
     sparsity_level_setting_mode := sparsity_level_setting_mode p;
     schedule := schedule p;
     params_sparsity_init := Some v |}.

(** The scheduler as this controller observes it: two read-only properties. *)
Record Scheduler : Type := mkScheduler {
  current_sparsity_level : Q;
  target_level : Q
}.

Inductive CompressionStage : Type :=
  | UNCOMPRESSED
  | PARTIALLY_COMPRESSED
  | FULLY_COMPRESSED.

Record LayerThreshold : Type := mkLayerThreshold {
  layer_name : string;
  layer_threshold : Q
}.

(* ================================================================== *)
(** ** External collaborators

    Code this controller calls and that lives outside the file: the two
    registries, the batch-norm adaptation algorithm and the statistics
    helpers of the base controller.  [World] is the part of the model the
    adaptation routine works on (normalisation statistics); the routine reads
    the layers and does not write them. *)

Class Externals (World BnAlgo ModelStats : Type) : Type := {
  (* WEIGHT_IMPORTANCE_FUNCTIONS[key]; a missing key raises KeyError *)
  WEIGHT_IMPORTANCE_FUNCTIONS : string -> option (Tensor -> Tensor);
  (* SPARSITY_SCHEDULERS.get(name), a scheduler class; calling it on the
     parameters builds a scheduler (the controller it also receives is only kept) *)
  SPARSITY_SCHEDULERS_get : string -> Result (Params -> Result Scheduler);
  (* BatchnormAdaptationAlgorithm( **extract_bn_adaptation_init_params(config)) *)
  BatchnormAdaptationAlgorithm : Config -> Result BnAlgo;
  (* algo.run(model) *)
  bn_adaptation_run : BnAlgo -> Heap -> World -> Result unit * World;
  (* BaseSparsityAlgoController.sparsity_rate_for_sparsified_modules(target) *)
  sparsity_rate_for_sparsified_modules : Heap -> list ref -> option ref -> Q;
  (* BaseSparsityAlgoController._calculate_sparsified_model_stats() *)
  _calculate_sparsified_model_stats : Heap -> list ref -> ModelStats
}.

(** The same collaborators with another scheduler registry. *)
Definition with_scheduler_registry {World BnAlgo ModelStats : Type}
    (E : Externals World BnAlgo ModelStats)
    (registry : string -> Result (Params -> Result Scheduler))
    : Externals World BnAlgo ModelStats :=
  {| WEIGHT_IMPORTANCE_FUNCTIONS := @WEIGHT_IMPORTANCE_FUNCTIONS _ _ _ E;
     SPARSITY_SCHEDULERS_get := registry;
     BatchnormAdaptationAlgorithm := @BatchnormAdaptationAlgorithm _ _ _ E;
     bn_adaptation_run := @bn_adaptation_run _ _ _ E;
     sparsity_rate_for_sparsified_modules := @sparsity_rate_for_sparsified_modules _ _ _ E;
     _calculate_sparsified_model_stats := @_calculate_sparsified_model_stats _ _ _ E |}.

(** The same collaborators with another constructor of the adaptation
    algorithm. *)
Definition with_bn_constructor {World BnAlgo ModelStats : Type}
    (E : Externals World BnAlgo ModelStats)
    (constructor : Config -> Result BnAlgo)
    : Externals World BnAlgo ModelStats :=
  {| WEIGHT_IMPORTANCE_FUNCTIONS := @WEIGHT_IMPORTANCE_FUNCTIONS _ _ _ E;
     SPARSITY_SCHEDULERS_get := @SPARSITY_SCHEDULERS_get _ _ _ E;
     BatchnormAdaptationAlgorithm := constructor;
     bn_adaptation_run := @bn_adaptation_run _ _ _ E;
     sparsity_rate_for_sparsified_modules := @sparsity_rate_for_sparsified_modules _ _ _ E;
     _calculate_sparsified_model_stats := @_calculate_sparsified_model_stats _ _ _ E |}.

(* ================================================================== *)
(** ** The controller *)

Section Controller.
Context {World BnAlgo ModelStats : Type} {E : Externals World BnAlgo ModelStats}.

(** The wrapped network: the sparsified layers and the rest. *)
Record Model : Type := mkModel {
  layers : Heap;
  world : World
}.

(** The attributes of a [MagnitudeSparsityController]. *)
Record Controller : Type := mkController {
  sparsified_module_info : list ref;
  _config : Config;
  _weight_importance_fn : Tensor -> Tensor;
  _mode : string;
  _scheduler : option Scheduler;
  _bn_adaptation : option BnAlgo
}.

Record State : Type := mkState {
  self : Controller;
  model : Model
}.

Record MagnitudeSparsityStatistics : Type := mkStatistics {
  model_statistics : ModelStats;
  thresholds_statistics : list LayerThreshold
}.

(** [NNCFStatistics]: the registered statistics by algorithm name. *)
Definition NNCFStatistics : Type := list (string * MagnitudeSparsityStatistics).

Definition with_layers (st : State) (h : Heap) : State :=
  {| self := self st; model := {| layers := h; world := world (model st) |} |}.

Definition with_world (st : State) (w : World) : State :=
  {| self := self st; model := {| layers := layers (model st); world := w |} |}.

Definition with_bn_adaptation (st : State) (a : option BnAlgo) : State :=
  {| self := {| sparsified_module_info := sparsified_module_info (self st);
                _config := _config (self st);
                _weight_importance_fn := _weight_importance_fn (self st);
                _mode := _mode (self st);
                _scheduler := _scheduler (self st);
                _bn_adaptation := a |};
     model := model st |}.

(** *** Methods as state transformers with exceptions *)

Definition M (A : Type) : Type := State -> Result A * State.

Definition ret {A : Type} (a : A) : M A := fun st => (inr a, st).

Definition raise {A : Type} (e : exn) : M A := fun st => (inl e, st).

Definition bind {A B : Type} (m : M A) (k : A -> M B) : M B :=
  fun st =>
    match m st with
    | (inl e, st') => (inl e, st')
    | (inr a, st') => k a st'
    end.

(** A computation that only reads the state. *)
Definition reading {A : Type} (f : State -> Result A) : M A := fun st => (f st, st).

Definition get_state : M State := fun st => (inr st, st).

Notation "x <- m ;; k" := (bind m (fun x => k))
  (at level 61, m at next level, right associativity).
Notation "m ;;; k" := (bind m (fun _ => k))
  (at level 61, right associativity).

(** [_collect_all_weights]: one flattened score tensor per layer, in order. *)
Definition _collect_all_weights (st : State) (target_list : list ref) : list (list Q) :=
  fold_left
    (fun all_weights minfo =>
       all_weights
         ++ [view_flat (_weight_importance_fn (self st)
                          (weight (module (layers (model st) minfo))))])
    target_list [].

(** [_select_threshold].  The index is taken from the exact product
    [(size - 1) * sparsity_level]; the source truncates the double-precision
    product, which is this one whenever the product is [binary64_exact] and
    otherwise differs from it by one rounding. *)
Definition _select_threshold (st : State) (sparsity_level : Q) (target_list : list ref)
    : Result Q :=
  let all_weights := _collect_all_weights st target_list in
  match all_weights with
  | [] => inr 0
  | _ :: _ =>
      let all_weights_tensor := tensor_sort (torch_cat all_weights) in
      tensor_getitem all_weights_tensor
        (int_of_Q (inject_Z (Z.of_nat (length all_weights_tensor) - 1) * sparsity_level))
  end.

(** One iteration of the loop of [_set_masks_for_threshold]. *)
Definition set_layer_mask (fn : Tensor -> Tensor) (threshold_val : Q)
    (h : Heap) (layer : ref) : Heap :=
  if frozen (operand (h layer)) then h
  else store h layer
         (assign_binary_mask (h layer)
            (calc_magnitude_binary_mask (weight (module (h layer))) fn threshold_val)).

(** [_set_masks_for_threshold] *)
Definition _set_masks_for_threshold (threshold_val : Q) (target_list : list ref) : M unit :=
  fun st =>
    (inr tt,
     with_layers st
       (fold_left (set_layer_mask (_weight_importance_fn (self st)) threshold_val)
          target_list (layers (model st)))).

(** [freeze] *)
Definition freeze : M unit :=
  fun st =>
    (inr tt,
     with_layers st
       (fold_left (fun h layer => store h layer (assign_frozen (h layer) true))
          (sparsified_module_info (self st)) (layers (model st)))).

(** [_run_batchnorm_adaptation]: the algorithm object is built on first
    use and kept; then it runs on the model. *)
Definition _run_batchnorm_adaptation : M unit :=
  st <- get_state ;;
  algo <- match _bn_adaptation (self st) with
          | None =>
              a <- reading (fun st => BatchnormAdaptationAlgorithm (_config (self st))) ;;
              (fun st => (inr tt, with_bn_adaptation st (Some a))) ;;;
              ret a
          | Some a => ret a
          end ;;
  (fun st =>
     let (outcome, w) := bn_adaptation_run algo (layers (model st)) (world (model st)) in
     (outcome, with_world st w)).

(** [set_sparsity_level] *)
Definition set_sparsity_level (sparsity_level : Q)
    (target_sparsified_module_info : option ref)
    (run_batchnorm_adaptation : bool) : M unit :=
  if (Qle_bool 1 sparsity_level || Qlt_bool sparsity_level 0)%bool
  then raise (AttributeError (SparsityLevelOutOfInterval sparsity_level))
  else
    st <- get_state ;;
    let target_sparsified_module_info_list :=
      match target_sparsified_module_info with
      | None => sparsified_module_info (self st)
      | Some target => [target]
      end in
    threshold <- reading (fun st =>
                   _select_threshold st sparsity_level target_sparsified_module_info_list) ;;
    _set_masks_for_threshold threshold target_sparsified_module_info_list ;;;
    if run_batchnorm_adaptation then _run_batchnorm_adaptation else ret tt.

(** [compression_stage]; [self.scheduler] is the [_scheduler] attribute,
    and reading a property of [None] raises. *)
Definition compression_stage (st : State) : Result CompressionStage :=
  if String.eqb (_mode (self st)) "local" then inr FULLY_COMPRESSED
  else
    match _scheduler (self st) with
    | None => inl (AttributeError (NoneTypeHasNoAttribute "current_sparsity_level"))
    | Some scheduler =>
        if Qeq_bool (current_sparsity_level scheduler) 0 then inr UNCOMPRESSED
        else if Qle_bool (target_level scheduler) (current_sparsity_level scheduler)
             then inr FULLY_COMPRESSED
             else inr PARTIALLY_COMPRESSED
    end.

(** [statistics] *)
Definition statistics (st : State) : Result NNCFStatistics :=
  let infos := sparsified_module_info (self st) in
  let h := layers (model st) in
  let model_statistics := _calculate_sparsified_model_stats h infos in
  let is_global := String.eqb (_mode (self st)) "global" in
  match
    (if is_global
     then match _select_threshold st (sparsity_rate_for_sparsified_modules h infos None) infos with
          | inl e => inl e
          | inr t => inr (Some t)
          end
     else inr None)
  with
  | inl e => inl e
  | inr global_threshold =>
      match
        fold_left
          (fun acc minfo =>
             match acc with
             | inl e => inl e
             | inr threshold_statistics =>
                 match
                   (match global_threshold with
                    | Some t => inr t
                    | None =>
                        _select_threshold st
                          (sparsity_rate_for_sparsified_modules h infos (Some minfo)) [minfo]
                    end)
                 with
                 | inl e => inl e
                 | inr threshold =>
                     inr (threshold_statistics
                            ++ [mkLayerThreshold (module_name (h minfo)) threshold])
                 end
             end)
          infos (inr [])
      with
      | inl e => inl e
      | inr threshold_statistics =>
          inr [("magnitude_sparsity"%string,
                mkStatistics model_statistics threshold_statistics)]
      end
  end.

(** [__init__]: [super().__init__] records the layer list; the rest follows
    the body.  The outcome is the constructed controller or the exception,
    with the model as the call leaves it. *)
Definition __init__ (target_model : Model) (sparsified_module_info : list ref)
    (config : Config) : Result Controller * Model :=
  let params := dict_get (cfg_params config) empty_params in
  let importance_key := dict_get (weight_importance params) "normed_abs"%string in
  match WEIGHT_IMPORTANCE_FUNCTIONS importance_key with
  | None => (inl (KeyError importance_key), target_model)
  | Some weight_importance_fn =>
      let mode := dict_get (sparsity_level_setting_mode params) "global"%string in
      let sparsity_init := dict_get (cfg_sparsity_init config) 0 in
      match
        (if String.eqb mode "global"
         then
           let params' := params_set_sparsity_init params sparsity_init in
           (* the dictionary written is the one the configuration holds, if any *)
           let config' :=
             match cfg_params config with
             | Some _ => mkConfig (Some params') (cfg_sparsity_init config)
             | None => config
             end in
           match SPARSITY_SCHEDULERS_get (dict_get (schedule params) "polynomial"%string) with
           | inl e => inl e
           | inr scheduler_cls =>
               match scheduler_cls params' with
               | inl e => inl e
               | inr scheduler => inr (config', Some scheduler)
               end
           end
         else inr (config, None))
      with
      | inl e => (inl e, target_model)
      | inr (config', scheduler) =>
          let st :=
            mkState
              (mkController sparsified_module_info config' weight_importance_fn
                 mode scheduler None)
              target_model in
          match set_sparsity_level sparsity_init None false st with
          | (inl e, st') => (inl e, model st')
          | (inr _, st') => (inr (self st'), model st')
          end
      end
  end.

(** *** The controller over its lifetime *)

(** A call of one of the controller's methods after construction. *)
Inductive Call : Type :=
| CallSetSparsityLevel (sparsity_level : Q) (target : option ref) (run_bn : bool)
| CallFreeze
| CallCompressionStage
| CallStatistics.

(** The state a call leaves, whether it returns or raises. *)
Definition call_step (st : State) (c : Call) : State :=
  match c with
  | CallSetSparsityLevel sparsity_level target run_bn =>
      snd (set_sparsity_level sparsity_level target run_bn st)
  | CallFreeze => snd (freeze st)
  | CallCompressionStage => st
  | CallStatistics => st
  end.

Definition run_calls (st : State) (calls : list Call) : State :=
  fold_left call_step calls st.

(** *** The specification's reading of the selector *)

(** The layer list a call of [set_sparsity_level] works on. *)
Definition working_set (st : State) (target : option ref) : list ref :=
  match target with
  | None => sparsified_module_info (self st)
  | Some t => [t]
  end.

(** The flattened importance scores of one layer. *)
Definition layer_scores (st : State) (r : ref) : list Q :=
  view_flat (_weight_importance_fn (self st) (weight (module (layers (model st) r)))).

(** Section 4.2 in its own words: the importance scores of every layer of
    the list, each flattened, concatenated across the layers. *)
Definition pooled_importance_scores (st : State) (target_list : list ref) : list Q :=
  flat_map (layer_scores st) target_list.

(** The rank read by the selector: [floor((N-1) * level)]. *)
Definition threshold_rank (N : nat) (level : Q) : Z :=
  Qfloor (inject_Z (Z.of_nat N - 1) * level).

(** *** Vocabulary of the properties *)

(** The state after the mask step of a call. *)
Definition after_masks (st : State) (threshold_val : Q) (l : list ref) : State :=
  snd (_set_masks_for_threshold threshold_val l st).

(** One store is a mask update of another: layers keep their module, name
    and frozen flag, and a frozen layer keeps its whole entry. *)
Definition mask_update (h h' : Heap) : Prop :=
  forall r,
    module (h' r) = module (h r)
    /\ module_name (h' r) = module_name (h r)
    /\ frozen (operand (h' r)) = frozen (operand (h r))
    /\ (frozen (operand (h r)) = true -> h' r = h r).

(** The frozen flag is a latch: a frozen layer keeps its whole entry. *)
Definition frozen_kept (h h' : Heap) : Prop :=
  forall r, frozen (operand (h r)) = true -> h' r = h r.

(** The external adaptation raises [e] when run from state [st]: the
    routine itself, or the construction of its algorithm object on first use. *)
Definition adaptation_raises (st : State) (e : exn) : Prop :=
  match _bn_adaptation (self st) with
  | Some a => fst (bn_adaptation_run a (layers (model st)) (world (model st))) = inl e
  | None =>
      match BatchnormAdaptationAlgorithm (_config (self st)) with
      | inl e' => e' = e
      | inr a => fst (bn_adaptation_run a (layers (model st)) (world (model st))) = inl e
      end
  end.

(** The state with another value in the [_scheduler] attribute. *)
Definition with_scheduler (st : State) (s : option Scheduler) : State :=
  {| self := {| sparsified_module_info := sparsified_module_info (self st);
                _config := _config (self st);
                _weight_importance_fn := _weight_importance_fn (self st);
                _mode := _mode (self st);
                _scheduler := s;
                _bn_adaptation := _bn_adaptation (self st) |};
     model := model st |}.

(** *** Vocabulary of the further properties *)

(** How many scores are at most, and how many are below, a threshold. *)
Definition count_at_most (threshold_val : Q) (scores : list Q) : nat :=
  length (filter (fun s => Qle_bool s threshold_val) scores).


(** The mask elements of the layers of a list, layer after layer. *)
Definition masks_of (st : State) (l : list ref) : list Q :=
  flat_map (fun r => data (binary_mask (operand (layers (model st) r)))) l.

(** How many mask elements are 0. *)
Definition count_zeros (mask : list Q) : nat :=
  length (filter (fun m => Qeq_bool m 0) mask).

(** The entry of [statistics] for one layer and its threshold. *)
Definition layer_threshold_entry (st : State) (threshold_of : ref -> Q) (r : ref)
    : LayerThreshold :=
  mkLayerThreshold (module_name (layers (model st) r)) (threshold_of r).

End Controller.

Arguments Model : clear implicits.
Arguments Controller : clear implicits.
Arguments State : clear implicits.
Arguments MagnitudeSparsityStatistics : clear implicits.
Arguments NNCFStatistics : clear implicits.
Arguments M : clear implicits.

(* ================================================================== *)
(** ** Concrete collaborators and layers, for the scenarios *)

(** Modelled from the spec: the importance function "absolute value" of the
    registry in [functions.py], which is not part of the sources at hand. *)
Definition abs_magnitude (w : Tensor) : Tensor :=
  {| shape := shape w; data := map Qabs (data w) |}.

(** Modelled from the spec: [normed_abs] of the same registry.  Section 4.1:
    absolute value normalized by the tensor's maximum absolute value, or 0 if
    all-zero. *)
Definition normed_magnitude (w : Tensor) : Tensor :=
  let m := fold_left (fun acc x => if Qle_bool acc (Qabs x) then Qabs x else acc) (data w) 0 in
  {| shape := shape w;
     data := map (fun x => if Qeq_bool m 0 then 0 else Qabs x / m) (data w) |}.

Definition demo_importance_registry (key : string) : option (Tensor -> Tensor) :=
  if String.eqb key "abs" then Some abs_magnitude
  else if String.eqb key "normed_abs" then Some normed_magnitude
  else None.

(** A scheduler class that starts at the initial level and aims at 1/2. *)
Definition demo_scheduler_cls (p : Params) : Result Scheduler :=
  inr {| current_sparsity_level := dict_get (params_sparsity_init p) 0;
         target_level := 1 # 2 |}.

Definition demo_scheduler_registry (name : string) : Result (Params -> Result Scheduler) :=
  if String.eqb name "polynomial" then inr demo_scheduler_cls
  else inl (KeyError name).

(** The sparsity rate of the masks of the layers asked for: the fraction of
    mask elements that are 0 (0 when there is no element). *)
Definition demo_sparsity_rate (h : Heap) (infos : list ref) (target : option ref) : Q :=
  let chosen := match target with None => infos | Some t => [t] end in
  let masks := flat_map (fun r => data (binary_mask (operand (h r)))) chosen in
  let zeros := filter (fun m => Qeq_bool m 0) masks in
  match length masks with
  | O => 0
  | S n => Z.of_nat (length zeros) # Pos.of_succ_nat n
  end.

(** Collaborators whose adaptation routine succeeds; the world counts its runs. *)
Definition demo_externals : Externals nat unit unit :=
  {| WEIGHT_IMPORTANCE_FUNCTIONS := demo_importance_registry;
     SPARSITY_SCHEDULERS_get := demo_scheduler_registry;
     BatchnormAdaptationAlgorithm := fun _ => inr tt;
     bn_adaptation_run := fun _ _ w => (inr tt, S w);
     sparsity_rate_for_sparsified_modules := demo_sparsity_rate;
     _calculate_sparsified_model_stats := fun _ _ => tt |}.

(** Collaborators whose adaptation routine raises. *)
Definition failing_externals : Externals nat unit unit :=
  {| WEIGHT_IMPORTANCE_FUNCTIONS := demo_importance_registry;
     SPARSITY_SCHEDULERS_get := demo_scheduler_registry;
     BatchnormAdaptationAlgorithm := fun _ => inr tt;
     bn_adaptation_run := fun _ _ w => (inl (Raised "RuntimeError"), S w);
     sparsity_rate_for_sparsified_modules := demo_sparsity_rate;
     _calculate_sparsified_model_stats := fun _ _ => tt |}.

(** A layer with a 1-D weight and an all-ones mask. *)
Definition demo_layer (name : string) (w : list Q) (is_frozen : bool) : SparseModuleInfo :=
  {| module_name := name;
     module := {| weight := {| shape := [length w]; data := w |} |};
     operand := {| binary_mask := {| shape := [length w]; data := map (fun _ => 1) w |};
                   frozen := is_frozen |} |}.

(** Layers 0 to 3 hold weights; layer 3 is frozen; every other reference
    denotes a layer whose weight tensor has no element. *)
Definition demo_heap : Heap :=
  fun r =>
    match r with
    | 0%nat => demo_layer "conv1" [-3; 1; 0; 5; -2; 4] false
    | 1%nat => demo_layer "fc_a" [1; -5] false
    | 2%nat => demo_layer "fc_b" [-2; 4] false
    | 3%nat => demo_layer "head" [7; -1; 2] true
    | _ => demo_layer "empty" [] false
    end.

Definition demo_model : Model nat := {| layers := demo_heap; world := 0%nat |}.

Definition demo_controller (mode : string) (scheduler : option Scheduler)
    (infos : list ref) : Controller unit :=
  {| sparsified_module_info := infos;
     _config := mkConfig None None;
     _weight_importance_fn := abs_magnitude;
     _mode := mode;
     _scheduler := scheduler;
     _bn_adaptation := None |}.

Definition demo_state (mode : string) (scheduler : option Scheduler)
    (infos : list ref) : State nat unit :=
  {| self := demo_controller mode scheduler infos; model := demo_model |}.

(** A scheduler at level 0 whose target level is 0 as well. *)
Definition idle_scheduler : Scheduler :=
  {| current_sparsity_level := 0; target_level := 0 |}.

(** A scheduler that has reached its target level 1/2. *)
Definition finished_scheduler : Scheduler :=
  {| current_sparsity_level := 1 # 2; target_level := 1 # 2 |}.


Definition demo_config (mode : string) (init : option Q) : Config :=
  {| cfg_params := Some {| weight_importance := Some "abs"%string;
                           sparsity_level_setting_mode := Some mode;
                           schedule := None;
                           params_sparsity_init := None |};
     cfg_sparsity_init := init |}.

(* ================================================================== *)
(** ** Auxiliary facts: scalars, tensors, sorting *)

Lemma Qlt_bool_iff (x y : Q) : Qlt_bool x y = true <-> x < y.
Proof.
  unfold Qlt_bool. rewrite negb_true_iff. split; intro H.
  - apply Qnot_le_lt. intro Hle. apply Qle_bool_iff in Hle. congruence.
  - destruct (Qle_bool y x) eqn:Hb; [|reflexivity].
    apply Qle_bool_iff in Hb. exfalso. exact (Qlt_not_le _ _ H Hb).
Qed.

Lemma Qlt_bool_false_iff (x y : Q) : Qlt_bool x y = false <-> y <= x.
Proof.
  unfold Qlt_bool. rewrite negb_false_iff. apply Qle_bool_iff.
Qed.

(** On a non-negative real, [int] is the floor. *)
Lemma int_of_Q_nonneg (x : Q) : 0 <= x -> int_of_Q x = Qfloor x.
Proof.
  destruct x as [n d]. unfold Qle, int_of_Q, Qfloor. simpl. intro H.
  apply Z.quot_div_nonneg; lia.
Qed.

(** The level check of [set_sparsity_level], read as a proposition. *)
Lemma level_check_true (level : Q) :
  (Qle_bool 1 level || Qlt_bool level 0)%bool = true <-> (level < 0 \/ 1 <= level).
Proof.
  rewrite orb_true_iff, Qle_bool_iff, Qlt_bool_iff. tauto.
Qed.

Lemma level_check_false (level : Q) :
  (Qle_bool 1 level || Qlt_bool level 0)%bool = false <-> (0 <= level /\ level < 1).
Proof.
  rewrite orb_false_iff, Qlt_bool_false_iff. split.
  - intros [H1 H0]. split; [exact H0|].
    apply Qnot_le_lt. intro Hle. apply Qle_bool_iff in Hle. congruence.
  - intros [H0 H1]. split; [|exact H0].
    destruct (Qle_bool 1 level) eqn:Hb; [|reflexivity].
    apply Qle_bool_iff in Hb. exfalso. exact (Qlt_not_le _ _ H1 Hb).
Qed.

Lemma threshold_rank_bounds (N : nat) (level : Q) :
  (1 <= N)%nat -> 0 <= level -> level < 1 ->
  (0 <= threshold_rank N level <= Z.of_nat N - 1)%Z.
Proof.
  intros HN H0 H1. unfold threshold_rank.
  assert (Hm : 0 <= inject_Z (Z.of_nat N - 1)).
  { change 0 with (inject_Z 0). rewrite <- Zle_Qle. lia. }
  split.
  - change 0%Z with (Qfloor 0). apply Qfloor_resp_le.
    apply Qmult_le_0_compat; assumption.
  - apply Z.le_trans with (Qfloor (inject_Z (Z.of_nat N - 1))).
    + apply Qfloor_resp_le.
      assert (Hle : level * inject_Z (Z.of_nat N - 1) <= 1 * inject_Z (Z.of_nat N - 1)).
      { apply Qmult_le_compat_r; [apply Qlt_le_weak, H1 | exact Hm]. }
      rewrite Qmult_1_l in Hle. rewrite Qmult_comm. exact Hle.
    + rewrite Qfloor_Z. lia.
Qed.

Lemma tensor_getitem_in_range (t : list Q) (i : Z) :
  (0 <= i < Z.of_nat (length t))%Z ->
  exists v, tensor_getitem t i = inr v /\ nth_error t (Z.to_nat i) = Some v.
Proof.
  intros [H0 H1]. unfold tensor_getitem.
  destruct (i <? 0)%Z eqn:Hneg; [apply Z.ltb_lt in Hneg; lia|].
  replace ((0 <=? i)%Z && (i <? Z.of_nat (length t))%Z)%bool with true.
  2:{ symmetry. apply andb_true_iff. split; [apply Z.leb_le | apply Z.ltb_lt]; lia. }
  destruct (nth_error t (Z.to_nat i)) eqn:Hn.
  - eauto.
  - apply nth_error_None in Hn. lia.
Qed.

(** Indexing a tensor without elements raises, whatever the index. *)
Lemma tensor_getitem_empty (i : Z) : tensor_getitem [] i = inl IndexError.
Proof.
  unfold tensor_getitem. simpl.
  destruct (i <? 0)%Z;
    match goal with
    | |- context [((0 <=? ?j)%Z && (?j <? 0)%Z)%bool] =>
        destruct (0 <=? j)%Z eqn:Ha; destruct (j <? 0)%Z eqn:Hb; simpl; try reflexivity;
        apply Z.leb_le in Ha; apply Z.ltb_lt in Hb; lia
    end.
Qed.

Lemma Qle_bool_transitive : Transitive (fun x y : Q => is_true (Qle_bool x y)).
Proof.
  intros x y z Hxy Hyz. unfold is_true in *.
  rewrite Qle_bool_iff in *. eapply Qle_trans; eassumption.
Qed.

Lemma tensor_sort_perm (t : list Q) : Permutation t (tensor_sort t).
Proof. apply QSort.Permuted_sort. Qed.

Lemma tensor_sort_length (t : list Q) : length (tensor_sort t) = length t.
Proof. symmetry. apply Permutation_length, tensor_sort_perm. Qed.

Lemma tensor_sort_sorted (t : list Q) : StronglySorted Qle (tensor_sort t).
Proof.
  unfold tensor_sort.
  pose proof (QSort.StronglySorted_sort t Qle_bool_transitive) as H.
  induction H as [| a l Hl IH Hall]; constructor.
  - exact IH.
  - eapply Forall_impl; [|exact Hall]. intros b Hb. apply Qle_bool_iff. exact Hb.
Qed.

(** In a sorted sequence, ranks and values are ordered alike. *)
Lemma sorted_nth_le (l : list Q) :
  StronglySorted Qle l ->
  forall i j a b, (i <= j)%nat ->
    nth_error l i = Some a -> nth_error l j = Some b -> a <= b.
Proof.
  induction 1 as [| x l Hl IH Hall]; intros i j a b Hij Ha Hb.
  - destruct i; discriminate.
  - destruct i as [|i], j as [|j]; simpl in *.
    + injection Ha as <-. injection Hb as <-. apply Qle_refl.
    + injection Ha as <-. rewrite Forall_forall in Hall.
      apply Hall. eapply nth_error_In. exact Hb.
    + lia.
    + eapply IH; [| exact Ha | exact Hb]. lia.
Qed.

Lemma fold_left_append_map {A B : Type} (g : A -> B) (l : list A) (acc : list B) :
  fold_left (fun all x => all ++ [g x]) l acc = acc ++ map g l.
Proof.
  revert acc. induction l as [| a l IH]; intro acc; simpl.
  - now rewrite app_nil_r.
  - rewrite IH, <- app_assoc. reflexivity.
Qed.

(* ================================================================== *)
(** ** Properties of the controller *)

Section Properties.
Context {World BnAlgo ModelStats : Type} {E : Externals World BnAlgo ModelStats}.
Implicit Types (st : State World BnAlgo) (target : option ref) (level thr : Q).

(** *** Threshold selection *)

Lemma collect_all_weights_map st (l : list ref) :
  _collect_all_weights st l = map (layer_scores st) l.
Proof.
  unfold _collect_all_weights. apply (fold_left_append_map (layer_scores st) l []).
Qed.

Lemma torch_cat_collect st (l : list ref) :
  torch_cat (_collect_all_weights st l) = pooled_importance_scores st l.
Proof.
  rewrite collect_all_weights_map. unfold torch_cat, pooled_importance_scores.
  symmetry. apply flat_map_concat_map.
Qed.

(** With a layer in the list, the selector reads the sorted pool at the
    truncated product. *)
Lemma select_threshold_nonempty st level (l : list ref) :
  l <> [] ->
  _select_threshold st level l =
    tensor_getitem (tensor_sort (pooled_importance_scores st l))
      (int_of_Q (inject_Z (Z.of_nat (length (pooled_importance_scores st l)) - 1) * level)).
Proof.
  intro Hl. unfold _select_threshold.
  rewrite tensor_sort_length, torch_cat_collect.
  rewrite collect_all_weights_map.
  destruct l as [| r l]; [congruence | reflexivity].
Qed.

(** With an element in the pool and a level in [0,1), the selector returns. *)
Lemma selector_returns_rank st level (l : list ref) :
  0 <= level -> level < 1 ->
  (1 <= length (pooled_importance_scores st l))%nat ->
  exists thr, _select_threshold st level l = inr thr
    /\ nth_error (tensor_sort (pooled_importance_scores st l))
         (Z.to_nat (threshold_rank (length (pooled_importance_scores st l)) level))
       = Some thr.
Proof.
  intros H0 H1 HN.
  assert (Hl : l <> []).
  { intro Hnil. subst l. simpl in HN. lia. }
  pose proof (threshold_rank_bounds _ level HN H0 H1) as Hk.
  rewrite (select_threshold_nonempty st level l Hl).
  rewrite int_of_Q_nonneg.
  2:{ apply Qmult_le_0_compat; [|exact H0].
      change 0 with (inject_Z 0). rewrite <- Zle_Qle. lia. }
  fold (threshold_rank (length (pooled_importance_scores st l)) level).
  apply tensor_getitem_in_range. rewrite tensor_sort_length. lia.
Qed.

(** C6: for every sparsity level, the selector applied to an empty layer
    list returns exactly 0.0 and raises nothing. *)
Theorem select_threshold_empty_list st level :
  _select_threshold st level [] = inr 0.
Proof. reflexivity. Qed.


(** *** The mask loop and the freeze loop, layer by layer *)

Lemma existsb_eqb_In (r : ref) (l : list ref) :
  existsb (Nat.eqb r) l = true <-> In r l.
Proof.
  rewrite existsb_exists. split.
  - intros [x [Hin Heq]]. apply Nat.eqb_eq in Heq. now subst.
  - intro Hin. exists r. split; [exact Hin | apply Nat.eqb_refl].
Qed.

(** What the loop of [_set_masks_for_threshold] leaves at each reference. *)
Lemma set_masks_pointwise (fn : Tensor -> Tensor) thr (l : list ref) (h : Heap) (r : ref) :
  fold_left (set_layer_mask fn thr) l h r =
    if frozen (operand (h r)) then h r
    else if existsb (Nat.eqb r) l
         then assign_binary_mask (h r)
                (calc_magnitude_binary_mask (weight (module (h r))) fn thr)
         else h r.
Proof.
  revert h. induction l as [| a l IH]; intro h; simpl.
  - destruct (frozen (operand (h r))); reflexivity.
  - rewrite IH. unfold set_layer_mask.
    destruct (frozen (operand (h a))) eqn:Fa.
    + destruct (Nat.eqb r a) eqn:Era; simpl; [|reflexivity].
      apply Nat.eqb_eq in Era. subst a. rewrite Fa. reflexivity.
    + unfold store. destruct (Nat.eqb r a) eqn:Era; simpl; [|reflexivity].
      apply Nat.eqb_eq in Era. subst a. rewrite Fa.
      destruct (existsb (Nat.eqb r) l); reflexivity.
Qed.

(** What the loop of [freeze] leaves at each reference. *)
Lemma freeze_pointwise (l : list ref) (h : Heap) (r : ref) :
  fold_left (fun h layer => store h layer (assign_frozen (h layer) true)) l h r =
    if existsb (Nat.eqb r) l then assign_frozen (h r) true else h r.
Proof.
  revert h. induction l as [| a l IH]; intro h; simpl.
  - reflexivity.
  - rewrite IH. unfold store.
    destruct (Nat.eqb r a) eqn:Era; simpl; [|reflexivity].
    apply Nat.eqb_eq in Era. subst a.
    destruct (existsb (Nat.eqb r) l); reflexivity.
Qed.

(** When every layer of the list is frozen the loop returns the store it got. *)
Lemma set_masks_all_frozen (fn : Tensor -> Tensor) thr (l : list ref) (h : Heap) :
  (forall r, In r l -> frozen (operand (h r)) = true) ->
  fold_left (set_layer_mask fn thr) l h = h.
Proof.
  induction l as [| a l IH]; intro Hall; simpl.
  - reflexivity.
  - unfold set_layer_mask at 2. rewrite (Hall a (or_introl eq_refl)).
    apply IH. intros r Hr. apply Hall. now right.
Qed.

Lemma mask_update_refl (h : Heap) : mask_update h h.
Proof. intro r. repeat split. Qed.

Lemma set_masks_mask_update (fn : Tensor -> Tensor) thr (l : list ref) (h : Heap) :
  mask_update h (fold_left (set_layer_mask fn thr) l h).
Proof.
  intro r. rewrite set_masks_pointwise.
  destruct (frozen (operand (h r))) eqn:Fr.
  - repeat split; assumption.
  - destruct (existsb (Nat.eqb r) l); simpl; repeat split; try assumption;
      intro; discriminate.
Qed.

(** *** The shape of [set_sparsity_level] *)

Lemma set_sparsity_level_invalid st level target (run : bool) :
  (level < 0 \/ 1 <= level) ->
  set_sparsity_level level target run st
  = (inl (AttributeError (SparsityLevelOutOfInterval level)), st).
Proof.
  intro H. apply level_check_true in H.
  unfold set_sparsity_level. rewrite H. reflexivity.
Qed.

Lemma set_sparsity_level_valid st level target (run : bool) :
  0 <= level -> level < 1 ->
  set_sparsity_level level target run st =
    match _select_threshold st level (working_set st target) with
    | inl e => (inl e, st)
    | inr thr =>
        if run
        then _run_batchnorm_adaptation (after_masks st thr (working_set st target))
        else (inr tt, after_masks st thr (working_set st target))
    end.
Proof.
  intros H0 H1.
  assert (Hc : (Qle_bool 1 level || Qlt_bool level 0)%bool = false)
    by (apply level_check_false; split; assumption).
  unfold set_sparsity_level. rewrite Hc.
  unfold bind, get_state, reading, after_masks, working_set.
  destruct target as [t|];
    match goal with
    | |- context [_select_threshold st level ?l] =>
        destruct (_select_threshold st level l) as [e | thr]
    end; simpl; try reflexivity; destruct run; reflexivity.
Qed.

(** The adaptation step writes the world and the cached algorithm only. *)
Lemma run_batchnorm_adaptation_frame st :
  let st' := snd (_run_batchnorm_adaptation st) in
  layers (model st') = layers (model st)
  /\ sparsified_module_info (self st') = sparsified_module_info (self st)
  /\ _weight_importance_fn (self st') = _weight_importance_fn (self st)
  /\ _mode (self st') = _mode (self st)
  /\ _scheduler (self st') = _scheduler (self st)
  /\ _config (self st') = _config (self st).
Proof.
  unfold _run_batchnorm_adaptation, bind, get_state, reading, ret. simpl.
  destruct (_bn_adaptation (self st)) as [a |]; simpl.
  - destruct (bn_adaptation_run a (layers (model st)) (world (model st))); simpl.
    repeat split.
  - destruct (BatchnormAdaptationAlgorithm (_config (self st))) as [e | a]; simpl.
    + repeat split.
    + destruct (bn_adaptation_run a (layers (model st)) (world (model st))); simpl.
      repeat split.
Qed.

(** Every call of [set_sparsity_level], returning or raising, leaves a mask
    update of the store and the controller's other attributes as they were. *)
Lemma set_sparsity_level_frame st level target (run : bool) :
  let st' := snd (set_sparsity_level level target run st) in
  mask_update (layers (model st)) (layers (model st'))
  /\ sparsified_module_info (self st') = sparsified_module_info (self st)
  /\ _weight_importance_fn (self st') = _weight_importance_fn (self st)
  /\ _mode (self st') = _mode (self st)
  /\ _scheduler (self st') = _scheduler (self st)
  /\ _config (self st') = _config (self st).
Proof.
  destruct (Qlt_le_dec level 0) as [Hneg | H0].
  { rewrite set_sparsity_level_invalid by (left; exact Hneg). simpl.
    split; [apply mask_update_refl | repeat split]. }
  destruct (Qlt_le_dec level 1) as [H1 | Hbig].
  2:{ rewrite set_sparsity_level_invalid by (right; exact Hbig). simpl.
      split; [apply mask_update_refl | repeat split]. }
  rewrite set_sparsity_level_valid by assumption.
  destruct (_select_threshold st level (working_set st target)) as [e | thr].
  { simpl. split; [apply mask_update_refl | repeat split]. }
  assert (Hm : mask_update (layers (model st))
                 (layers (model (after_masks st thr (working_set st target)))))
    by apply set_masks_mask_update.
  destruct run.
  - destruct (run_batchnorm_adaptation_frame (after_masks st thr (working_set st target)))
      as (Hl & Hi & Hf & Hmo & Hs & Hc).
    cbv zeta. rewrite Hl, Hi, Hf, Hmo, Hs, Hc.
    split; [exact Hm | repeat split].
  - simpl. split; [exact Hm | repeat split].
Qed.

(** *** The mask of an updated layer *)

Lemma calc_mask_nth (w : Tensor) (fn : Tensor -> Tensor) thr (i : nat) (s : Q) :
  nth_error (data (fn w)) i = Some s ->
  nth_error (data (calc_magnitude_binary_mask w fn thr)) i
  = Some (if Qlt_bool thr s then 1 else 0).
Proof.
  intro H. unfold calc_magnitude_binary_mask. simpl.
  rewrite nth_error_map, H. reflexivity.
Qed.

(** After the mask step, an unfrozen layer of the list holds the mask
    computed from its weight and the threshold. *)
Lemma after_masks_unfrozen st thr (l : list ref) (r : ref) :
  In r l -> frozen (operand (layers (model st) r)) = false ->
  binary_mask (operand (layers (model (after_masks st thr l)) r))
  = calc_magnitude_binary_mask (weight (module (layers (model st) r)))
      (_weight_importance_fn (self st)) thr.
Proof.
  intros Hin Hfr. unfold after_masks, _set_masks_for_threshold. simpl.
  rewrite set_masks_pointwise, Hfr.
  apply existsb_eqb_In in Hin. rewrite Hin. reflexivity.
Qed.

(** C2: the mask-apply step is strictly-greater-than.  For an unfrozen layer
    of the list and every element i, the new mask has mask[i] = 1 exactly
    when the importance score at i exceeds the threshold and mask[i] = 0
    otherwise, so a score equal to the threshold is dropped.  In the
    scenario of one layer with weights [-3, 1, 0, 5, -2, 4], absolute-value
    importance and level 0.5, the selected threshold is 2 and the resulting
    mask is [1,0,0,1,0,1]. *)
Theorem mask_strictly_greater_than_threshold :
  (forall st thr (l : list ref) (r : ref),
      In r l -> frozen (operand (layers (model st) r)) = false ->
      let scores := layer_scores st r in
      let mask := data (binary_mask (operand (layers (model (after_masks st thr l)) r))) in
      length mask = length scores
      /\ forall i s, nth_error scores i = Some s ->
           nth_error mask i = Some (if Qlt_bool thr s then 1 else 0)
           /\ (thr < s -> nth_error mask i = Some 1)
           /\ (s <= thr -> nth_error mask i = Some 0))
  /\ (let st0 := demo_state "local" None [0%nat] in
      layer_scores st0 0%nat = [3; 1; 0; 5; 2; 4]
      /\ _select_threshold st0 (1 # 2) [0%nat] = inr 2
      /\ fst (@set_sparsity_level _ _ _ demo_externals (1 # 2) None false st0) = inr tt
      /\ data (binary_mask (operand (layers (model
                 (snd (@set_sparsity_level _ _ _ demo_externals (1 # 2) None false st0)))
                 0%nat)))
         = [1; 0; 0; 1; 0; 1]).
Proof.
  split.
  - intros st thr l r Hin Hfr scores mask. subst scores mask.
    rewrite (after_masks_unfrozen st thr l r Hin Hfr). unfold layer_scores, view_flat.
    split.
    + unfold calc_magnitude_binary_mask. simpl. apply length_map.
    + intros i s Hs.
      pose proof (calc_mask_nth (weight (module (layers (model st) r)))
                    (_weight_importance_fn (self st)) thr i s Hs) as Hm.
      split; [exact Hm | split].
      * intro Hlt. apply Qlt_bool_iff in Hlt. rewrite Hlt in Hm. exact Hm.
      * intro Hle. apply Qlt_bool_false_iff in Hle. rewrite Hle in Hm. exact Hm.
  - vm_compute. repeat split; reflexivity.
Qed.

(** *** Frozen layers *)

Lemma set_sparsity_level_frozen st level target (run : bool) (r : ref) :
  frozen (operand (layers (model st) r)) = true ->
  layers (model (snd (set_sparsity_level level target run st))) r = layers (model st) r.
Proof.
  intro Hfr.
  destruct (set_sparsity_level_frame st level target run) as [Hm _].
  destruct (Hm r) as (_ & _ & _ & Hkeep). exact (Hkeep Hfr).
Qed.

Lemma set_sparsity_level_unfrozen st level target (run : bool) thr (r : ref) :
  0 <= level -> level < 1 ->
  _select_threshold st level (working_set st target) = inr thr ->
  In r (working_set st target) ->
  frozen (operand (layers (model st) r)) = false ->
  binary_mask (operand (layers (model (snd (set_sparsity_level level target run st))) r))
  = calc_magnitude_binary_mask (weight (module (layers (model st) r)))
      (_weight_importance_fn (self st)) thr.
Proof.
  intros H0 H1 Hsel Hin Hfr.
  rewrite set_sparsity_level_valid by assumption. rewrite Hsel.
  destruct run.
  - destruct (run_batchnorm_adaptation_frame (after_masks st thr (working_set st target)))
      as [Hl _].
    cbv zeta in Hl. rewrite Hl. apply after_masks_unfrozen; assumption.
  - simpl. apply after_masks_unfrozen; assumption.
Qed.

(** C3: a layer whose operand is frozen keeps its binary mask through every
    call of [set_sparsity_level], whatever the level, the mode, the target
    and the adaptation flag, and whether or not the layer is in the working
    set; the unfrozen layers of the working set get the mask of the selected
    threshold. *)
Theorem frozen_layer_mask_unchanged st level target (run : bool) :
  let st' := snd (set_sparsity_level level target run st) in
  (forall r, frozen (operand (layers (model st) r)) = true ->
      binary_mask (operand (layers (model st') r))
      = binary_mask (operand (layers (model st) r))
      /\ frozen (operand (layers (model st') r)) = true)
  /\ (0 <= level -> level < 1 ->
      forall thr, _select_threshold st level (working_set st target) = inr thr ->
      forall r, In r (working_set st target) ->
        frozen (operand (layers (model st) r)) = false ->
        binary_mask (operand (layers (model st') r))
        = calc_magnitude_binary_mask (weight (module (layers (model st) r)))
            (_weight_importance_fn (self st)) thr).
Proof.
  intro st'. subst st'. split.
  - intros r Hfr. rewrite (set_sparsity_level_frozen st level target run r Hfr).
    split; [reflexivity | exact Hfr].
  - intros H0 H1 thr Hsel r Hin Hfr.
    apply set_sparsity_level_unfrozen; assumption.
Qed.

(** *** Levels outside the interval *)

Lemma with_layers_same st : with_layers st (layers (model st)) = st.
Proof. destruct st as [c [h w]]. reflexivity. Qed.

(** A valid call without adaptation returns when the working set is empty
    or its pool has an element. *)
Lemma set_sparsity_level_returns st level target :
  0 <= level -> level < 1 ->
  (working_set st target = []
   \/ (1 <= length (pooled_importance_scores st (working_set st target)))%nat) ->
  fst (set_sparsity_level level target false st) = inr tt.
Proof.
  intros H0 H1 Hws. rewrite set_sparsity_level_valid by assumption.
  destruct Hws as [Hnil | HN].
  - rewrite Hnil. reflexivity.
  - destruct (selector_returns_rank st level (working_set st target) H0 H1 HN)
      as [thr [Hsel _]].
    rewrite Hsel. reflexivity.
Qed.

(** C4: for every level outside [0,1) the call raises the error naming the
    value and returns the state it got, so no mask of any layer is written;
    the controller remains usable: a later call behaves as it would have
    without the rejected one, and with a valid level it returns. *)
Theorem out_of_range_level_rejected st level target (run : bool) :
  (level < 0 \/ 1 <= level) ->
  let st' := snd (set_sparsity_level level target run st) in
  set_sparsity_level level target run st
  = (inl (AttributeError (SparsityLevelOutOfInterval level)), st)
  /\ (forall r, layers (model st') r = layers (model st) r)
  /\ (forall level' target' (run' : bool),
        set_sparsity_level level' target' run' st'
        = set_sparsity_level level' target' run' st)
  /\ (forall level' target',
        0 <= level' -> level' < 1 ->
        (working_set st' target' = []
         \/ (1 <= length (pooled_importance_scores st' (working_set st' target')))%nat) ->
        fst (set_sparsity_level level' target' false st') = inr tt).
Proof.
  intros Hout st'. subst st'.
  rewrite (set_sparsity_level_invalid st level target run Hout). simpl.
  repeat split.
  intros level' target' H0 H1 Hws. apply set_sparsity_level_returns; assumption.
Qed.

(** *** Compression stage *)

(** C5 (amended): the stage is FullyCompressed whenever the mode is Local;
    in Global mode it is Uncompressed if the scheduler's current level is 0,
    FullyCompressed if the current level is not 0 and is at least the
    scheduler's target level, and PartiallyCompressed otherwise. *)
Theorem compression_stage_by_mode st :
  (_mode (self st) = "local"%string -> compression_stage st = inr FULLY_COMPRESSED)
  /\ (_mode (self st) = "global"%string ->
      forall s, _scheduler (self st) = Some s ->
        (current_sparsity_level s == 0 -> compression_stage st = inr UNCOMPRESSED)
        /\ (~ current_sparsity_level s == 0 ->
            target_level s <= current_sparsity_level s ->
            compression_stage st = inr FULLY_COMPRESSED)
        /\ (~ current_sparsity_level s == 0 ->
            current_sparsity_level s < target_level s ->
            compression_stage st = inr PARTIALLY_COMPRESSED)).
Proof.
  unfold compression_stage. split.
  - intros ->. reflexivity.
  - intros -> s ->. simpl.
    repeat split.
    + intro Hz. apply Qeq_bool_iff in Hz. rewrite Hz. reflexivity.
    + intros Hnz Hge.
      destruct (Qeq_bool (current_sparsity_level s) 0) eqn:Hz.
      { apply Qeq_bool_iff in Hz. contradiction. }
      apply Qle_bool_iff in Hge. rewrite Hge. reflexivity.
    + intros Hnz Hlt.
      destruct (Qeq_bool (current_sparsity_level s) 0) eqn:Hz.
      { apply Qeq_bool_iff in Hz. contradiction. }
      destruct (Qle_bool (target_level s) (current_sparsity_level s)) eqn:Hge;
        [|reflexivity].
      apply Qle_bool_iff in Hge. exfalso. exact (Qlt_not_le _ _ Hlt Hge).
Qed.

(** *** The frozen latch over the controller's lifetime *)

Lemma frozen_kept_refl (h : Heap) : frozen_kept h h.
Proof. intros r _. reflexivity. Qed.

Lemma frozen_kept_trans (h1 h2 h3 : Heap) :
  frozen_kept h1 h2 -> frozen_kept h2 h3 -> frozen_kept h1 h3.
Proof.
  intros H12 H23 r Hfr. rewrite <- (H12 r Hfr). apply H23.
  rewrite (H12 r Hfr). exact Hfr.
Qed.

Lemma assign_frozen_same (layer : SparseModuleInfo) :
  frozen (operand layer) = true -> assign_frozen layer true = layer.
Proof.
  destruct layer as [n m [bm f]]. simpl. intros ->. reflexivity.
Qed.

Lemma freeze_frozen_kept st :
  frozen_kept (layers (model st)) (layers (model (snd (freeze st)))).
Proof.
  intros r Hfr. unfold freeze. simpl. rewrite freeze_pointwise.
  destruct (existsb (Nat.eqb r) (sparsified_module_info (self st)));
    [apply assign_frozen_same, Hfr | reflexivity].
Qed.

(** No call clears a frozen flag or changes the layer list, the mode or the
    scheduler attribute. *)
Lemma call_step_frame st (c : Call) :
  let st' := call_step st c in
  frozen_kept (layers (model st)) (layers (model st'))
  /\ sparsified_module_info (self st') = sparsified_module_info (self st)
  /\ _mode (self st') = _mode (self st)
  /\ _scheduler (self st') = _scheduler (self st).
Proof.
  destruct c as [level target run | | |]; simpl.
  - destruct (set_sparsity_level_frame st level target run)
      as (Hm & Hi & _ & Hmo & Hs & _).
    repeat split; try assumption.
    intros r Hfr. destruct (Hm r) as (_ & _ & _ & Hkeep). exact (Hkeep Hfr).
  - split; [apply freeze_frozen_kept | repeat split].
  - split; [apply frozen_kept_refl | repeat split].
  - split; [apply frozen_kept_refl | repeat split].
Qed.

Lemma run_calls_frame (calls : list Call) st :
  let st' := run_calls st calls in
  frozen_kept (layers (model st)) (layers (model st'))
  /\ sparsified_module_info (self st') = sparsified_module_info (self st)
  /\ _mode (self st') = _mode (self st)
  /\ _scheduler (self st') = _scheduler (self st).
Proof.
  revert st. induction calls as [| c calls IH]; intro st; simpl.
  - split; [apply frozen_kept_refl | repeat split].
  - destruct (call_step_frame st c) as (Hk & Hi & Hmo & Hs).
    destruct (IH (call_step st c)) as (Hk' & Hi' & Hmo' & Hs').
    cbv zeta in *. unfold run_calls in *.
    rewrite Hi', Hmo', Hs', Hi, Hmo, Hs.
    split; [eapply frozen_kept_trans; eassumption | repeat split].
Qed.

Lemma freeze_sets_flag st (r : ref) :
  In r (sparsified_module_info (self st)) ->
  frozen (operand (layers (model (snd (freeze st))) r)) = true.
Proof.
  intro Hin. unfold freeze. simpl. rewrite freeze_pointwise.
  apply existsb_eqb_In in Hin. rewrite Hin. reflexivity.
Qed.

Lemma freeze_keeps_mask st (r : ref) :
  binary_mask (operand (layers (model (snd (freeze st))) r))
  = binary_mask (operand (layers (model st) r)).
Proof.
  unfold freeze. simpl. rewrite freeze_pointwise.
  destruct (existsb (Nat.eqb r) (sparsified_module_info (self st))); reflexivity.
Qed.

(** With every layer of the working set frozen, a valid call without
    adaptation computes the threshold and returns the state it got. *)
Lemma set_sparsity_level_all_frozen st level target :
  0 <= level -> level < 1 ->
  (forall r, In r (working_set st target) -> frozen (operand (layers (model st) r)) = true) ->
  set_sparsity_level level target false st
  = (match _select_threshold st level (working_set st target) with
     | inl e => inl e
     | inr _ => inr tt
     end, st).
Proof.
  intros H0 H1 Hall. rewrite set_sparsity_level_valid by assumption.
  destruct (_select_threshold st level (working_set st target)) as [e | thr];
    [reflexivity|].
  unfold after_masks, _set_masks_for_threshold. simpl.
  rewrite (set_masks_all_frozen _ _ _ _ Hall). rewrite with_layers_same. reflexivity.
Qed.

(** C7: [freeze] sets the frozen flag on every layer the controller manages
    and leaves the masks alone; no later call clears a flag, so after
    [freeze] every call sequence leaves the masks of all managed layers as
    they were; the threshold is still computed by each call: a call with a
    valid level returns or raises as the selector does, with the state
    unchanged. *)
Theorem freeze_latches_every_layer st :
  let st1 := snd (freeze st) in
  fst (freeze st) = inr tt
  /\ (forall r, In r (sparsified_module_info (self st)) ->
        frozen (operand (layers (model st1) r)) = true)
  /\ (forall r, binary_mask (operand (layers (model st1) r))
                = binary_mask (operand (layers (model st) r)))
  /\ (forall (calls : list Call) r,
        In r (sparsified_module_info (self st)) ->
        frozen (operand (layers (model (run_calls st1 calls)) r)) = true
        /\ binary_mask (operand (layers (model (run_calls st1 calls)) r))
           = binary_mask (operand (layers (model st) r)))
  /\ (forall (calls : list Call) level target,
        0 <= level -> level < 1 ->
        (forall t, target = Some t -> In t (sparsified_module_info (self st))) ->
        let st2 := run_calls st1 calls in
        set_sparsity_level level target false st2
        = (match _select_threshold st2 level (working_set st2 target) with
           | inl e => inl e
           | inr _ => inr tt
           end, st2)).
Proof.
  intro st1.
  assert (Hlife : forall (calls : list Call) r,
             In r (sparsified_module_info (self st)) ->
             layers (model (run_calls st1 calls)) r = layers (model st1) r).
  { intros calls r Hin.
    destruct (run_calls_frame calls st1) as [Hk _]. apply Hk.
    apply freeze_sets_flag. exact Hin. }
  split; [reflexivity|].
  split; [intros r Hin; apply freeze_sets_flag; exact Hin|].
  split; [intro r; apply freeze_keeps_mask|].
  split.
  - intros calls r Hin. rewrite (Hlife calls r Hin). split.
    + apply freeze_sets_flag. exact Hin.
    + apply freeze_keeps_mask.
  - intros calls level target H0 H1 Htarget st2.
    apply set_sparsity_level_all_frozen; try assumption.
    intros r Hr.
    assert (Hin : In r (sparsified_module_info (self st))).
    { destruct (run_calls_frame calls st1) as (_ & Hi & _).
      destruct target as [t|]; simpl in Hr.
      - destruct Hr as [<- | []]. apply Htarget. reflexivity.
      - fold st2 in Hi. cbv zeta in Hi. rewrite Hi in Hr. exact Hr. }
    unfold st2. rewrite (Hlife calls r Hin). apply freeze_sets_flag. exact Hin.
Qed.

(** *** Failure of the adaptation routine *)

Lemma adaptation_raises_outcome st (e : exn) :
  adaptation_raises st e -> fst (_run_batchnorm_adaptation st) = inl e.
Proof.
  unfold adaptation_raises, _run_batchnorm_adaptation, bind, get_state, reading, ret.
  simpl.
  destruct (_bn_adaptation (self st)) as [a |]; simpl.
  - destruct (bn_adaptation_run a (layers (model st)) (world (model st))); simpl.
    intros ->. reflexivity.
  - destruct (BatchnormAdaptationAlgorithm (_config (self st))) as [e' | a]; simpl.
    + intros ->. reflexivity.
    + destruct (bn_adaptation_run a (layers (model st)) (world (model st))); simpl.
      intros ->. reflexivity.
Qed.

(** C8: when the call asks for adaptation and the external routine raises,
    that error is the outcome of the call and the masks applied by the call
    stay applied: the routine runs on the state the mask step left, after
    every mask update of the call, and nothing is rolled back. *)
Theorem adaptation_failure_keeps_masks st level target thr (e : exn) :
  0 <= level -> level < 1 ->
  _select_threshold st level (working_set st target) = inr thr ->
  adaptation_raises (after_masks st thr (working_set st target)) e ->
  let st_m := after_masks st thr (working_set st target) in
  let st' := snd (set_sparsity_level level target true st) in
  fst (set_sparsity_level level target true st) = inl e
  /\ set_sparsity_level level target true st = _run_batchnorm_adaptation st_m
  /\ layers (model st') = layers (model st_m)
  /\ (forall r, In r (working_set st target) ->
        frozen (operand (layers (model st) r)) = false ->
        binary_mask (operand (layers (model st') r))
        = calc_magnitude_binary_mask (weight (module (layers (model st) r)))
            (_weight_importance_fn (self st)) thr).
Proof.
  intros H0 H1 Hsel Hraise st_m st'.
  assert (Heq : set_sparsity_level level target true st = _run_batchnorm_adaptation st_m).
  { rewrite set_sparsity_level_valid by assumption. rewrite Hsel. reflexivity. }
  split; [rewrite Heq; apply adaptation_raises_outcome; exact Hraise|].
  split; [exact Heq|].
  split.
  - unfold st'. rewrite Heq.
    destruct (run_batchnorm_adaptation_frame st_m) as [Hl _]. exact Hl.
  - intros r Hin Hfr. unfold st'.
    apply set_sparsity_level_unfrozen; assumption.
Qed.

(** *** Construction *)

(** A call without adaptation that returns had a valid level and a
    threshold, and left the state of the mask step. *)
Lemma set_sparsity_level_returned st level target (u : unit) st' :
  set_sparsity_level level target false st = (inr u, st') ->
  0 <= level /\ level < 1
  /\ exists thr, _select_threshold st level (working_set st target) = inr thr
       /\ st' = after_masks st thr (working_set st target).
Proof.
  intro Hcall.
  destruct (Qlt_le_dec level 0) as [Hneg | H0].
  { rewrite set_sparsity_level_invalid in Hcall by (left; exact Hneg). discriminate. }
  destruct (Qlt_le_dec level 1) as [H1 | Hbig].
  2:{ rewrite set_sparsity_level_invalid in Hcall by (right; exact Hbig). discriminate. }
  rewrite set_sparsity_level_valid in Hcall by assumption.
  destruct (_select_threshold st level (working_set st target)) as [e | thr];
    [discriminate|].
  injection Hcall as _ <-. repeat split; try assumption.
  exists thr. split; reflexivity.
Qed.

(** A call without adaptation that raises leaves the state it got. *)
Lemma set_sparsity_level_raised st level target (e : exn) st' :
  set_sparsity_level level target false st = (inl e, st') -> st' = st.
Proof.
  intro Hcall.
  destruct (Qlt_le_dec level 0) as [Hneg | H0].
  { rewrite set_sparsity_level_invalid in Hcall by (left; exact Hneg). congruence. }
  destruct (Qlt_le_dec level 1) as [H1 | Hbig].
  2:{ rewrite set_sparsity_level_invalid in Hcall by (right; exact Hbig). congruence. }
  rewrite set_sparsity_level_valid in Hcall by assumption.
  destruct (_select_threshold st level (working_set st target)) as [e' | thr];
    congruence.
Qed.

Lemma after_masks_self st thr (l : list ref) : self (after_masks st thr l) = self st.
Proof. reflexivity. Qed.

(** The constructor, once the registries have answered: it builds the
    attributes and makes the initial call. *)
Lemma init_unfold (target_model : Model World) (infos : list ref) (config : Config) :
  let params := dict_get (cfg_params config) empty_params in
  let mode := dict_get (sparsity_level_setting_mode params) "global"%string in
  let init := dict_get (cfg_sparsity_init config) 0 in
  match WEIGHT_IMPORTANCE_FUNCTIONS (dict_get (weight_importance params) "normed_abs"%string) with
  | None => exists e, __init__ target_model infos config = (inl e, target_model)
  | Some fn =>
      (exists e, __init__ target_model infos config = (inl e, target_model)
                 /\ mode = "global"%string
                 /\ (SPARSITY_SCHEDULERS_get (dict_get (schedule params) "polynomial"%string) = inl e
                     \/ exists cls, SPARSITY_SCHEDULERS_get
                                      (dict_get (schedule params) "polynomial"%string) = inr cls
                                    /\ cls (params_set_sparsity_init params init) = inl e))
      \/ (exists config' scheduler,
            (mode <> "global"%string -> scheduler = None /\ config' = config)
            /\ (mode = "global"%string ->
                exists cls s, SPARSITY_SCHEDULERS_get
                                (dict_get (schedule params) "polynomial"%string) = inr cls
                              /\ cls (params_set_sparsity_init params init) = inr s
                              /\ scheduler = Some s)
            /\ __init__ target_model infos config
               = match set_sparsity_level init None false
                         (mkState (mkController infos config' fn mode scheduler None)
                            target_model) with
                 | (inl e, st') => (inl e, model st')
                 | (inr _, st') => (inr (self st'), model st')
                 end)
  end.
Proof.
  intros params mode init. unfold __init__. fold params. fold mode. fold init.
  destruct (WEIGHT_IMPORTANCE_FUNCTIONS (dict_get (weight_importance params) "normed_abs"%string))
    as [fn |]; [| eexists; reflexivity].
  destruct (String.eqb mode "global") eqn:Hmode.
  - apply String.eqb_eq in Hmode.
    destruct (SPARSITY_SCHEDULERS_get (dict_get (schedule params) "polynomial"%string))
      as [e | cls] eqn:Hreg.
    + left. exists e. repeat split; [exact Hmode | left; reflexivity].
    + destruct (cls (params_set_sparsity_init params init)) as [e | s] eqn:Hcls.
      * left. exists e. repeat split; [exact Hmode | right; exists cls; split; [reflexivity | exact Hcls]].
      * right. eexists. exists (Some s). split; [intro Hne; contradiction|].
        split; [intros _; exists cls, s; repeat split; exact Hcls|].
        reflexivity.
  - apply String.eqb_neq in Hmode.
    right. exists config, None. split; [intros _; split; reflexivity|].
    split; [intro Heq; contradiction | reflexivity].
Qed.


(** C10: a scheduler is constructed only in Global mode.  With any other
    mode the constructor never consults the scheduler registry and leaves
    the scheduler attribute unset, and the attribute stays unset through
    every later call; in Local mode [compression_stage] is FullyCompressed
    whatever the scheduler attribute holds, so it does not read it, and
    [statistics] does not read it either. *)
Theorem local_mode_never_has_scheduler (target_model : Model World) (infos : list ref)
    (config : Config) :
  let params := dict_get (cfg_params config) empty_params in
  let mode := dict_get (sparsity_level_setting_mode params) "global"%string in
  mode <> "global"%string ->
  (forall registry,
      @__init__ _ _ _ (with_scheduler_registry E registry) target_model infos config
      = __init__ target_model infos config)
  /\ (forall self' m',
        __init__ target_model infos config = (inr self', m') ->
        _mode self' = mode
        /\ _scheduler self' = None
        /\ forall calls : list Call,
             let st := run_calls (mkState self' m') calls in
             _scheduler (self st) = None
             /\ _mode (self st) = mode
             /\ (mode = "local"%string ->
                 compression_stage st = inr FULLY_COMPRESSED
                 /\ forall s, compression_stage (with_scheduler st s) = inr FULLY_COMPRESSED
                              /\ statistics (with_scheduler st s) = statistics st)).
Proof.
  intros params mode Hmode. split.
  - intro registry. unfold __init__. fold params. fold mode. simpl.
    destruct (WEIGHT_IMPORTANCE_FUNCTIONS
                (dict_get (weight_importance params) "normed_abs"%string)) as [fn |];
      [| reflexivity].
    apply String.eqb_neq in Hmode. rewrite Hmode. reflexivity.
  - intros self' m' Hret.
    pose proof (init_unfold target_model infos config) as Hu.
    cbv zeta in Hu. fold params in Hu. fold mode in Hu.
    destruct (WEIGHT_IMPORTANCE_FUNCTIONS
                (dict_get (weight_importance params) "normed_abs"%string)) as [fn |].
    2:{ destruct Hu as [e He]. congruence. }
    destruct Hu as [[e [He _]] | (config' & scheduler & Hlocal & _ & Heq)]; [congruence|].
    destruct (Hlocal Hmode) as [-> ->].
    rewrite Heq in Hret.
    match type of Hret with
    | context [set_sparsity_level ?i None false ?s0] =>
        destruct (set_sparsity_level i None false s0) as [[e | u] st'] eqn:Hcall;
          [discriminate|]
    end.
    injection Hret as <- <-.
    destruct (set_sparsity_level_returned _ _ _ _ _ Hcall) as (_ & _ & thr & _ & Hst').
    subst st'. rewrite after_masks_self.
    split; [reflexivity|]. split; [reflexivity|].
    intros calls st.
    match goal with
    | st := run_calls ?X calls |- _ =>
        destruct (run_calls_frame calls X) as (_ & _ & Hmo & Hs)
    end.
    cbv zeta in Hmo, Hs. fold st in Hmo, Hs. clearbody st. simpl in Hmo, Hs.
    split; [exact Hs|]. split; [exact Hmo|].
    intro Hloc.
    assert (Hst_mode : _mode (self st) = "local"%string) by congruence.
    split.
    + unfold compression_stage. rewrite Hst_mode. reflexivity.
    + intro s. split.
      * unfold compression_stage. simpl. rewrite Hst_mode. reflexivity.
      * reflexivity.
Qed.

End Properties.

(* ================================================================== *)
(** ** The properties at concrete inputs *)

Lemma Qhalf_in_range : 0 <= 1 # 2 /\ 1 # 2 < 1.
Proof. split; [discriminate | reflexivity]. Qed.

Lemma Qquarter_in_range : 0 <= 1 # 4 /\ 1 # 4 < 1.
Proof. split; [discriminate | reflexivity]. Qed.

Lemma Qthree_halves_out_of_range : 3 # 2 < 0 \/ 1 <= 3 # 2.
Proof. right. discriminate. Qed.

(** Two layers pooled: scores [1,5] and [2,4] at level 0.25 give the pooled
    threshold 1 and the masks [0,1] and [1,1]. *)
Example global_pooling_scenario :
  _select_threshold (demo_state "global" None [1%nat; 2%nat]) (1 # 4) [1%nat; 2%nat] = inr 1
  /\ data (binary_mask (operand (layers (model
       (snd (@set_sparsity_level _ _ _ demo_externals (1 # 4) None false
               (demo_state "global" None [1%nat; 2%nat])))) 1%nat))) = [0; 1]
  /\ data (binary_mask (operand (layers (model
       (snd (@set_sparsity_level _ _ _ demo_externals (1 # 4) None false
               (demo_state "global" None [1%nat; 2%nat])))) 2%nat))) = [1; 1].
Proof. repeat split. Qed.

(** With a single layer as target, the threshold is that layer's own: layer
    [fc_b] alone at level 0.25 has threshold 2 and keeps its element 4 only,
    and the other layers keep their masks. *)
Example single_target_scenario :
  _select_threshold (demo_state "local" None [1%nat; 2%nat]) (1 # 4) [2%nat] = inr 2
  /\ data (binary_mask (operand (layers (model
       (snd (@set_sparsity_level _ _ _ demo_externals (1 # 4) (Some 2%nat) false
               (demo_state "local" None [1%nat; 2%nat])))) 2%nat))) = [0; 1]
  /\ data (binary_mask (operand (layers (model
       (snd (@set_sparsity_level _ _ _ demo_externals (1 # 4) (Some 2%nat) false
               (demo_state "local" None [1%nat; 2%nat])))) 1%nat))) = [1; 1].
Proof. repeat split. Qed.




Lemma mask_strictly_greater_than_threshold_witness :
  (In 0%nat [0%nat]
   /\ frozen (operand (layers (model (demo_state "local" None [0%nat])) 0%nat)) = false
   /\ nth_error (layer_scores (demo_state "local" None [0%nat]) 0%nat) 4 = Some 2)
  /\ nth_error
       (data (binary_mask (operand (layers (model
          (after_masks (demo_state "local" None [0%nat]) 2 [0%nat])) 0%nat)))) 4
     = Some 0.
Proof.
  split; [split; [left; reflexivity | split; reflexivity]|].
  exact (proj1 (proj2 (proj1 (@mask_strictly_greater_than_threshold nat unit)
                         (demo_state "local" None [0%nat]) 2 [0%nat] 0%nat
                         (or_introl eq_refl) eq_refl)
                  4%nat 2 eq_refl)).
Defined.

Lemma frozen_layer_mask_unchanged_witness :
  (frozen (operand (layers (model (demo_state "global" None [0%nat; 3%nat])) 3%nat)) = true
   /\ 0 <= 1 # 2 /\ 1 # 2 < 1
   /\ _select_threshold (demo_state "global" None [0%nat; 3%nat]) (1 # 2) [0%nat; 3%nat]
      = inr 2
   /\ In 0%nat [0%nat; 3%nat]
   /\ frozen (operand (layers (model (demo_state "global" None [0%nat; 3%nat])) 0%nat)) = false)
  /\ binary_mask (operand (layers (model
       (snd (@set_sparsity_level _ _ _ demo_externals (1 # 2) None true
               (demo_state "global" None [0%nat; 3%nat])))) 3%nat))
     = binary_mask (operand (layers (model (demo_state "global" None [0%nat; 3%nat])) 3%nat))
  /\ binary_mask (operand (layers (model
       (snd (@set_sparsity_level _ _ _ demo_externals (1 # 2) None true
               (demo_state "global" None [0%nat; 3%nat])))) 0%nat))
     = calc_magnitude_binary_mask
         (weight (module (layers (model (demo_state "global" None [0%nat; 3%nat])) 0%nat)))
         abs_magnitude 2.
Proof.
  assert (Hsel : _select_threshold (demo_state "global" None [0%nat; 3%nat]) (1 # 2)
                   (working_set (demo_state "global" None [0%nat; 3%nat]) None) = inr 2)
    by reflexivity.
  split.
  { split; [reflexivity|]. split; [apply Qhalf_in_range|]. split; [apply Qhalf_in_range|].
    split; [exact Hsel|]. split; [left; reflexivity | reflexivity]. }
  pose proof (@frozen_layer_mask_unchanged nat unit unit demo_externals
                (demo_state "global" None [0%nat; 3%nat]) (1 # 2) None true)
    as [Hfrozen Hupdated].
  split.
  - exact (proj1 (Hfrozen 3%nat eq_refl)).
  - exact (Hupdated (proj1 Qhalf_in_range) (proj2 Qhalf_in_range) 2 Hsel
             0%nat (or_introl eq_refl) eq_refl).
Defined.

(** C4 as stated fails in its last clause.  On a controller the constructor
    returns, with a managed layer whose weight has no element, the call after
    a rejected one has a valid level and still raises. *)
Lemma later_valid_call_counterexample :
  exists self' m',
    @__init__ _ _ _ demo_externals demo_model [0%nat; 4%nat]
      (demo_config "local" (Some (1 # 2))) = (inr self', m')
    /\ fst (@set_sparsity_level _ _ _ demo_externals (3 # 2) None false (mkState self' m'))
       = inl (AttributeError (SparsityLevelOutOfInterval (3 # 2)))
    /\ 0 <= 1 # 2 /\ 1 # 2 < 1
    /\ fst (@set_sparsity_level _ _ _ demo_externals (1 # 2) (Some 4%nat) false
              (snd (@set_sparsity_level _ _ _ demo_externals (3 # 2) None false
                      (mkState self' m'))))
       = inl IndexError.
Proof.
  eexists. eexists. split; [reflexivity|].
  split; [reflexivity|]. split; [apply Qhalf_in_range|]. split; [apply Qhalf_in_range|].
  reflexivity.
Qed.

Lemma out_of_range_level_rejected_witness :
  (3 # 2 < 0 \/ 1 <= 3 # 2)
  /\ @set_sparsity_level _ _ _ demo_externals (3 # 2) None true
       (demo_state "global" None [0%nat; 3%nat])
     = (inl (AttributeError (SparsityLevelOutOfInterval (3 # 2))),
        demo_state "global" None [0%nat; 3%nat]).
Proof.
  split; [exact Qthree_halves_out_of_range|].
  exact (proj1 (@out_of_range_level_rejected nat unit unit demo_externals
                  (demo_state "global" None [0%nat; 3%nat]) (3 # 2) None true
                  Qthree_halves_out_of_range)).
Defined.

(** C5 as stated fails when the current level is 0 and the target level is
    not above it: the current level is at least the target level, and the
    stage is Uncompressed, not FullyCompressed. *)
Lemma compression_stage_counterexample :
  _mode (self (demo_state "global" (Some idle_scheduler) [0%nat])) = "global"%string
  /\ target_level idle_scheduler <= current_sparsity_level idle_scheduler
  /\ @compression_stage nat unit (demo_state "global" (Some idle_scheduler) [0%nat])
     = inr UNCOMPRESSED
  /\ @compression_stage nat unit (demo_state "global" (Some idle_scheduler) [0%nat])
     <> inr FULLY_COMPRESSED.
Proof.
  split; [reflexivity|]. split; [discriminate|]. split; [reflexivity | discriminate].
Qed.

Lemma compression_stage_by_mode_witness :
  (_mode (self (demo_state "global" (Some finished_scheduler) [0%nat])) = "global"%string
   /\ ~ current_sparsity_level finished_scheduler == 0
   /\ target_level finished_scheduler <= current_sparsity_level finished_scheduler)
  /\ compression_stage (demo_state "global" (Some finished_scheduler) [0%nat])
     = inr FULLY_COMPRESSED.
Proof.
  assert (Hnz : ~ current_sparsity_level finished_scheduler == 0) by discriminate.
  assert (Hge : target_level finished_scheduler <= current_sparsity_level finished_scheduler)
    by discriminate.
  split; [split; [reflexivity | split; [exact Hnz | exact Hge]]|].
  exact (proj1 (proj2 (proj2 (@compression_stage_by_mode nat unit
                                (demo_state "global" (Some finished_scheduler) [0%nat]))
                         eq_refl finished_scheduler eq_refl))
           Hnz Hge).
Defined.

Lemma freeze_latches_every_layer_witness :
  In 0%nat (sparsified_module_info (self (demo_state "global" None [0%nat; 1%nat])))
  /\ frozen (operand (layers (model (demo_state "global" None [0%nat; 1%nat])) 0%nat)) = false
  /\ frozen (operand (layers (model
       (@run_calls _ _ _ demo_externals
          (snd (freeze (demo_state "global" None [0%nat; 1%nat])))
          [CallSetSparsityLevel (1 # 2) None true; CallStatistics;
           CallSetSparsityLevel (1 # 4) (Some 1%nat) false])) 0%nat)) = true
  /\ binary_mask (operand (layers (model
       (@run_calls _ _ _ demo_externals
          (snd (freeze (demo_state "global" None [0%nat; 1%nat])))
          [CallSetSparsityLevel (1 # 2) None true; CallStatistics;
           CallSetSparsityLevel (1 # 4) (Some 1%nat) false])) 0%nat))
     = binary_mask (operand (layers (model (demo_state "global" None [0%nat; 1%nat])) 0%nat)).
Proof.
  split; [left; reflexivity|]. split; [reflexivity|].
  exact (proj1 (proj2 (proj2 (proj2
           (@freeze_latches_every_layer nat unit unit demo_externals
              (demo_state "global" None [0%nat; 1%nat])))))
           [CallSetSparsityLevel (1 # 2) None true; CallStatistics;
            CallSetSparsityLevel (1 # 4) (Some 1%nat) false]
           0%nat (or_introl eq_refl)).
Defined.

Lemma adaptation_failure_keeps_masks_witness :
  (0 <= 1 # 4 /\ 1 # 4 < 1
   /\ _select_threshold (demo_state "global" None [1%nat; 2%nat]) (1 # 4) [1%nat; 2%nat]
      = inr 1
   /\ @adaptation_raises _ _ _ failing_externals
        (after_masks (demo_state "global" None [1%nat; 2%nat]) 1 [1%nat; 2%nat])
        (Raised "RuntimeError"))
  /\ fst (@set_sparsity_level _ _ _ failing_externals (1 # 4) None true
            (demo_state "global" None [1%nat; 2%nat]))
     = inl (Raised "RuntimeError")
  /\ binary_mask (operand (layers (model
       (snd (@set_sparsity_level _ _ _ failing_externals (1 # 4) None true
               (demo_state "global" None [1%nat; 2%nat])))) 1%nat))
     = calc_magnitude_binary_mask
         (weight (module (layers (model (demo_state "global" None [1%nat; 2%nat])) 1%nat)))
         abs_magnitude 1.
Proof.
  assert (Hsel : _select_threshold (demo_state "global" None [1%nat; 2%nat]) (1 # 4)
                   (working_set (demo_state "global" None [1%nat; 2%nat]) None) = inr 1)
    by reflexivity.
  assert (Hraise : @adaptation_raises _ _ _ failing_externals
                     (after_masks (demo_state "global" None [1%nat; 2%nat]) 1
                        (working_set (demo_state "global" None [1%nat; 2%nat]) None))
                     (Raised "RuntimeError"))
    by reflexivity.
  split; [split; [apply Qquarter_in_range | split; [apply Qquarter_in_range |
            split; [exact Hsel | exact Hraise]]]|].
  pose proof (@adaptation_failure_keeps_masks nat unit unit failing_externals
                (demo_state "global" None [1%nat; 2%nat]) (1 # 4) None 1
                (Raised "RuntimeError")
                (proj1 Qquarter_in_range) (proj2 Qquarter_in_range) Hsel Hraise)
    as (Hout & _ & _ & Hmask).
  split; [exact Hout|].
  exact (Hmask 1%nat (or_introl eq_refl) eq_refl).
Defined.




Lemma local_mode_never_has_scheduler_witness :
  "local"%string <> "global"%string
  /\ exists self' m',
       @__init__ _ _ _ demo_externals demo_model [0%nat; 3%nat]
         (demo_config "local" (Some (1 # 2))) = (inr self', m')
       /\ _scheduler self' = None
       /\ _scheduler (self (@run_calls _ _ _ demo_externals (mkState self' m')
                              [CallFreeze; CallSetSparsityLevel (1 # 4) None true])) = None.
Proof.
  assert (Hmode : "local"%string <> "global"%string) by discriminate.
  split; [exact Hmode|].
  eexists. eexists. split; [reflexivity|].
  pose proof (proj2 (@local_mode_never_has_scheduler nat unit unit demo_externals
                       demo_model [0%nat; 3%nat] (demo_config "local" (Some (1 # 2)))
                       Hmode) _ _ eq_refl) as (_ & Hnone & Hlife).
  split; [exact Hnone|].
  exact (proj1 (Hlife [CallFreeze; CallSetSparsityLevel (1 # 4) None true])).
Defined.

(* ================================================================== *)
(** ** Further properties of the selector *)

Lemma threshold_rank_bounds_closed (N : nat) (level : Q) :
  (1 <= N)%nat -> 0 <= level -> level <= 1 ->
  (0 <= threshold_rank N level <= Z.of_nat N - 1)%Z.
Proof.
  intros HN H0 H1. unfold threshold_rank.
  assert (Hm : 0 <= inject_Z (Z.of_nat N - 1)).
  { change 0 with (inject_Z 0). rewrite <- Zle_Qle. lia. }
  split.
  - change 0%Z with (Qfloor 0). apply Qfloor_resp_le.
    apply Qmult_le_0_compat; assumption.
  - apply Z.le_trans with (Qfloor (inject_Z (Z.of_nat N - 1))).
    + apply Qfloor_resp_le.
      assert (Hle : level * inject_Z (Z.of_nat N - 1) <= 1 * inject_Z (Z.of_nat N - 1))
        by (apply Qmult_le_compat_r; assumption).
      rewrite Qmult_1_l in Hle. rewrite Qmult_comm. exact Hle.
    + rewrite Qfloor_Z. lia.
Qed.

Lemma threshold_rank_monotone (N : nat) (level1 level2 : Q) :
  (1 <= N)%nat -> level1 <= level2 ->
  (threshold_rank N level1 <= threshold_rank N level2)%Z.
Proof.
  intros HN Hle. unfold threshold_rank. apply Qfloor_resp_le.
  rewrite (Qmult_comm _ level1), (Qmult_comm _ level2).
  apply Qmult_le_compat_r; [exact Hle|].
  change 0 with (inject_Z 0). rewrite <- Zle_Qle. lia.
Qed.

Lemma threshold_rank_zero (N : nat) : threshold_rank N 0 = 0%Z.
Proof.
  unfold threshold_rank.
  rewrite (Qfloor_comp _ 0) by apply Qmult_0_r. reflexivity.
Qed.

Lemma threshold_rank_one (N : nat) : threshold_rank N 1 = (Z.of_nat N - 1)%Z.
Proof.
  unfold threshold_rank.
  rewrite (Qfloor_comp _ (inject_Z (Z.of_nat N - 1))) by apply Qmult_1_r.
  apply Qfloor_Z.
Qed.

(** An element read from a tensor is one of its elements. *)
Lemma tensor_getitem_In (t : list Q) (i : Z) (v : Q) :
  tensor_getitem t i = inr v -> In v t.
Proof.
  unfold tensor_getitem.
  destruct ((0 <=? (if (i <? 0)%Z then (i + Z.of_nat (length t))%Z else i))%Z
            && ((if (i <? 0)%Z then (i + Z.of_nat (length t))%Z else i)
                <? Z.of_nat (length t))%Z)%bool; [|discriminate].
  destruct (nth_error t (Z.to_nat (if (i <? 0)%Z then (i + Z.of_nat (length t))%Z else i)))
    as [x |] eqn:Hn; [|discriminate].
  intro H. injection H as <-. eapply nth_error_In. exact Hn.
Qed.

Lemma filter_length_perm {A : Type} (f : A -> bool) (l l' : list A) :
  Permutation l l' -> length (filter f l) = length (filter f l').
Proof.
  induction 1 as [| x l l' _ IH | x y l | l l' l'' _ IH1 _ IH2]; simpl.
  - reflexivity.
  - destruct (f x); simpl; congruence.
  - destruct (f x), (f y); reflexivity.
  - congruence.
Qed.

(** In a sorted sequence, the value at rank k has at least k+1 values at or
    below it and at most k values strictly below it. *)
Lemma sorted_count_at_most (l : list Q) :
  StronglySorted Qle l ->
  forall k thr, nth_error l k = Some thr -> (k + 1 <= count_at_most thr l)%nat.
Proof.
  unfold count_at_most.
  induction 1 as [| x l Hl IH Hall]; intros k thr Hk.
  - destruct k; discriminate.
  - destruct k as [| k]; simpl in Hk.
    + injection Hk as <-. simpl.
      assert (Hx : Qle_bool x x = true) by (apply Qle_bool_iff, Qle_refl).
      rewrite Hx. simpl. lia.
    + simpl. rewrite Forall_forall in Hall.
      assert (Hx : Qle_bool x thr = true).
      { apply Qle_bool_iff, Hall. eapply nth_error_In. exact Hk. }
      rewrite Hx. simpl. specialize (IH k thr Hk). lia.
Qed.


Section SelectorProperties.
Context {World BnAlgo : Type}.
Implicit Types (st : State World BnAlgo) (level thr : Q).

(** With an element in the pool and a level in the closed interval [0,1],
    the selector returns the value at the rank of the level. *)
Lemma selector_returns_rank_closed st level (l : list ref) :
  0 <= level -> level <= 1 ->
  (1 <= length (pooled_importance_scores st l))%nat ->
  exists thr, _select_threshold st level l = inr thr
    /\ nth_error (tensor_sort (pooled_importance_scores st l))
         (Z.to_nat (threshold_rank (length (pooled_importance_scores st l)) level))
       = Some thr.
Proof.
  intros H0 H1 HN.
  assert (Hl : l <> []).
  { intro Hnil. subst l. simpl in HN. lia. }
  pose proof (threshold_rank_bounds_closed _ level HN H0 H1) as Hk.
  rewrite (select_threshold_nonempty st level l Hl).
  rewrite int_of_Q_nonneg.
  2:{ apply Qmult_le_0_compat; [|exact H0].
      change 0 with (inject_Z 0). rewrite <- Zle_Qle. lia. }
  fold (threshold_rank (length (pooled_importance_scores st l)) level).
  apply tensor_getitem_in_range. rewrite tensor_sort_length. lia.
Qed.

(** X1: with an element in the pool, the selector at level 0 returns the
    smallest pooled score, and at level 1, which it accepts, the largest. *)
Theorem select_threshold_extremes st (l : list ref) :
  (1 <= length (pooled_importance_scores st l))%nat ->
  (exists lo, _select_threshold st 0 l = inr lo
     /\ In lo (pooled_importance_scores st l)
     /\ forall v, In v (pooled_importance_scores st l) -> lo <= v)
  /\ (exists hi, _select_threshold st 1 l = inr hi
        /\ In hi (pooled_importance_scores st l)
        /\ forall v, In v (pooled_importance_scores st l) -> v <= hi).
Proof.
  intro HN.
  pose proof (tensor_sort_perm (pooled_importance_scores st l)) as Hperm.
  pose proof (tensor_sort_sorted (pooled_importance_scores st l)) as Hsorted.
  split.
  - destruct (selector_returns_rank_closed st 0 l) as [lo [Hsel Hnth]];
      [apply Qle_refl | discriminate | exact HN |].
    rewrite threshold_rank_zero in Hnth. change (Z.to_nat 0) with 0%nat in Hnth.
    exists lo. split; [exact Hsel|]. split.
    + eapply Permutation_in; [apply Permutation_sym, Hperm|].
      eapply nth_error_In. exact Hnth.
    + intros v Hv. apply (Permutation_in _ Hperm) in Hv.
      destruct (In_nth_error _ _ Hv) as [j Hj].
      eapply (sorted_nth_le _ Hsorted 0%nat j); [lia | exact Hnth | exact Hj].
  - destruct (selector_returns_rank_closed st 1 l) as [hi [Hsel Hnth]];
      [discriminate | apply Qle_refl | exact HN |].
    rewrite threshold_rank_one in Hnth.
    exists hi. split; [exact Hsel|]. split.
    + eapply Permutation_in; [apply Permutation_sym, Hperm|].
      eapply nth_error_In. exact Hnth.
    + intros v Hv. apply (Permutation_in _ Hperm) in Hv.
      destruct (In_nth_error _ _ Hv) as [j Hj].
      eapply (sorted_nth_le _ Hsorted j); [| exact Hj | exact Hnth].
      assert (Hlt : (j < length (tensor_sort (pooled_importance_scores st l)))%nat).
      { apply nth_error_Some. congruence. }
      rewrite tensor_sort_length in Hlt. lia.
Qed.

(** X2: whenever the selector returns on a non-empty layer list, for any
    level at all, the threshold is the importance score of some element of
    some layer of the list. *)
Theorem select_threshold_is_a_score st level (l : list ref) thr :
  l <> [] ->
  _select_threshold st level l = inr thr ->
  exists r i, In r l /\ nth_error (layer_scores st r) i = Some thr.
Proof.
  intros Hl Hsel. rewrite (select_threshold_nonempty st level l Hl) in Hsel.
  apply tensor_getitem_In in Hsel.
  apply (Permutation_in _ (Permutation_sym (tensor_sort_perm _))) in Hsel.
  unfold pooled_importance_scores in Hsel. apply in_flat_map in Hsel.
  destruct Hsel as [r [Hr Hin]]. destruct (In_nth_error _ _ Hin) as [i Hi].
  exists r, i. split; assumption.
Qed.

Lemma selector_monotone st level1 level2 (l : list ref) :
  0 <= level1 -> level1 <= level2 -> level2 <= 1 ->
  (1 <= length (pooled_importance_scores st l))%nat ->
  exists thr1 thr2,
    _select_threshold st level1 l = inr thr1
    /\ _select_threshold st level2 l = inr thr2
    /\ thr1 <= thr2.
Proof.
  intros H0 H12 H1 HN.
  destruct (selector_returns_rank_closed st level1 l) as [thr1 [Hsel1 Hnth1]];
    [exact H0 | eapply Qle_trans; eassumption | exact HN |].
  destruct (selector_returns_rank_closed st level2 l) as [thr2 [Hsel2 Hnth2]];
    [eapply Qle_trans; eassumption | exact H1 | exact HN |].
  exists thr1, thr2. split; [exact Hsel1|]. split; [exact Hsel2|].
  eapply sorted_nth_le; [apply tensor_sort_sorted | | exact Hnth1 | exact Hnth2].
  pose proof (threshold_rank_monotone (length (pooled_importance_scores st l))
                level1 level2 HN H12).
  pose proof (threshold_rank_bounds_closed (length (pooled_importance_scores st l))
                level1 HN H0 (Qle_trans _ _ _ H12 H1)).
  lia.
Qed.

(** X3: the threshold grows with the level: for two levels of [0,1] in
    order, on the same layers, the selected thresholds are in the same order. *)
Theorem select_threshold_monotone st level1 level2 (l : list ref) :
  0 <= level1 -> level1 <= level2 -> level2 <= 1 ->
  (1 <= length (pooled_importance_scores st l))%nat ->
  exists thr1 thr2,
    _select_threshold st level1 l = inr thr1
    /\ _select_threshold st level2 l = inr thr2
    /\ thr1 <= thr2.
Proof. apply selector_monotone. Qed.


Lemma selector_same_weights st st' level (l : list ref) :
  _weight_importance_fn (self st') = _weight_importance_fn (self st) ->
  (forall r, In r l -> module (layers (model st') r) = module (layers (model st) r)) ->
  _select_threshold st' level l = _select_threshold st level l.
Proof.
  intros Hfn Hw.
  assert (Hc : _collect_all_weights st' l = _collect_all_weights st l).
  { rewrite !collect_all_weights_map. apply map_ext_in. intros r Hr.
    unfold layer_scores. rewrite Hfn, (Hw r Hr). reflexivity. }
  unfold _select_threshold. rewrite Hc. reflexivity.
Qed.

(** X5: the selector reads the importance function and the weights of the
    listed layers and nothing else: two states that agree on those give the
    same outcome, whatever their masks, frozen flags, mode or scheduler. *)
Theorem select_threshold_reads_weights_only st st' level (l : list ref) :
  _weight_importance_fn (self st') = _weight_importance_fn (self st) ->
  (forall r, In r l -> module (layers (model st') r) = module (layers (model st) r)) ->
  _select_threshold st' level l = _select_threshold st level l.
Proof. apply selector_same_weights. Qed.

(** With layers in the list and no element in the pool, the selector raises
    at every level. *)
Lemma selector_raises_on_empty_pool st level (l : list ref) :
  l <> [] -> length (pooled_importance_scores st l) = 0%nat ->
  _select_threshold st level l = inl IndexError.
Proof.
  intros Hl HN. rewrite (select_threshold_nonempty st level l Hl).
  apply length_zero_iff_nil in HN. rewrite HN. apply tensor_getitem_empty.
Qed.

End SelectorProperties.

(* ================================================================== *)
(** ** Further properties of the controller *)

Lemma flat_map_ext_in {A B : Type} (f g : A -> list B) (l : list A) :
  (forall a, In a l -> f a = g a) -> flat_map f l = flat_map g l.
Proof.
  induction l as [| a l IH]; intro H; simpl; [reflexivity|].
  rewrite (H a (or_introl eq_refl)), IH; [reflexivity|].
  intros b Hb. apply H. now right.
Qed.

Lemma flat_map_map_inner {A B C : Type} (g : B -> C) (f : A -> list B) (l : list A) :
  flat_map (fun a => map g (f a)) l = map g (flat_map f l).
Proof.
  induction l as [| a l IH]; simpl; [reflexivity|].
  rewrite IH, map_app. reflexivity.
Qed.

(** A mask element is 0 exactly when its score is at most the threshold. *)
Lemma mask_element_zero (thr s : Q) :
  Qeq_bool (if Qlt_bool thr s then 1 else 0) 0 = Qle_bool s thr.
Proof.
  unfold Qlt_bool. destruct (Qle_bool s thr); reflexivity.
Qed.

Section ControllerProperties.
Context {World BnAlgo ModelStats : Type} {E : Externals World BnAlgo ModelStats}.
Implicit Types (st : State World BnAlgo) (target : option ref) (level thr : Q).

(** *** What a call of [set_sparsity_level] writes *)

Lemma after_masks_outside st thr (l : list ref) (r : ref) :
  ~ In r l -> layers (model (after_masks st thr l)) r = layers (model st) r.
Proof.
  intro Hout. unfold after_masks, _set_masks_for_threshold. simpl.
  rewrite set_masks_pointwise.
  destruct (existsb (Nat.eqb r) l) eqn:Hex.
  - apply existsb_eqb_In in Hex. contradiction.
  - destruct (frozen (operand (layers (model st) r))); reflexivity.
Qed.

(** The store a call leaves is the one it got or the one of its mask step. *)
Lemma set_sparsity_level_layers st level target (run : bool) :
  layers (model (snd (set_sparsity_level level target run st))) = layers (model st)
  \/ exists thr,
       0 <= level /\ level < 1
       /\ _select_threshold st level (working_set st target) = inr thr
       /\ layers (model (snd (set_sparsity_level level target run st)))
          = layers (model (after_masks st thr (working_set st target))).
Proof.
  destruct (Qlt_le_dec level 0) as [Hneg | H0].
  { left. rewrite set_sparsity_level_invalid by (left; exact Hneg). reflexivity. }
  destruct (Qlt_le_dec level 1) as [H1 | Hbig].
  2:{ left. rewrite set_sparsity_level_invalid by (right; exact Hbig). reflexivity. }
  rewrite set_sparsity_level_valid by assumption.
  destruct (_select_threshold st level (working_set st target)) as [e | thr] eqn:Hsel.
  { left. reflexivity. }
  right. exists thr. repeat split; try assumption.
  destruct run; [|reflexivity].
  destruct (run_batchnorm_adaptation_frame (after_masks st thr (working_set st target)))
    as [Hl _].
  exact Hl.
Qed.

Lemma set_sparsity_level_outside st level target (run : bool) (r : ref) :
  ~ In r (working_set st target) ->
  layers (model (snd (set_sparsity_level level target run st))) r = layers (model st) r.
Proof.
  intro Hout.
  destruct (set_sparsity_level_layers st level target run) as [Heq | (thr & _ & _ & _ & Heq)];
    rewrite Heq; [reflexivity | apply after_masks_outside, Hout].
Qed.

Lemma set_sparsity_level_quiet st level target :
  world (model (snd (set_sparsity_level level target false st))) = world (model st)
  /\ self (snd (set_sparsity_level level target false st)) = self st.
Proof.
  destruct (Qlt_le_dec level 0) as [Hneg | H0].
  { rewrite set_sparsity_level_invalid by (left; exact Hneg). split; reflexivity. }
  destruct (Qlt_le_dec level 1) as [H1 | Hbig].
  2:{ rewrite set_sparsity_level_invalid by (right; exact Hbig). split; reflexivity. }
  rewrite set_sparsity_level_valid by assumption.
  destruct (_select_threshold st level (working_set st target)); split; reflexivity.
Qed.

(** X6: a call of [set_sparsity_level], returning or raising, writes masks
    only: every layer keeps its weight, name and frozen flag, a layer outside
    the working set keeps its whole entry, and the controller keeps its layer
    list, importance function, mode, scheduler and configuration; without
    adaptation the rest of the model and the controller are untouched. *)
Theorem set_sparsity_level_footprint st level target (run : bool) :
  let st' := snd (set_sparsity_level level target run st) in
  (forall r, module (layers (model st') r) = module (layers (model st) r)
             /\ module_name (layers (model st') r) = module_name (layers (model st) r)
             /\ frozen (operand (layers (model st') r))
                = frozen (operand (layers (model st) r)))
  /\ (forall r, ~ In r (working_set st target) ->
        layers (model st') r = layers (model st) r)
  /\ sparsified_module_info (self st') = sparsified_module_info (self st)
  /\ _weight_importance_fn (self st') = _weight_importance_fn (self st)
  /\ _mode (self st') = _mode (self st)
  /\ _scheduler (self st') = _scheduler (self st)
  /\ _config (self st') = _config (self st)
  /\ (run = false ->
      world (model st') = world (model st) /\ self st' = self st).
Proof.
  intro st'. subst st'.
  destruct (set_sparsity_level_frame st level target run) as (Hm & Hi & Hf & Hmo & Hs & Hc).
  split.
  { intro r. destruct (Hm r) as (H1 & H2 & H3 & _). repeat split; assumption. }
  split; [intros r Hr; apply set_sparsity_level_outside, Hr|].
  repeat (split; [assumption|]).
  intros ->. apply set_sparsity_level_quiet.
Qed.

(** X7: with no layer managed, a call with a valid level and no target
    returns and leaves the state as it is (the threshold is the 0.0 of the
    empty list). *)
Theorem set_sparsity_level_without_layers st level :
  sparsified_module_info (self st) = [] ->
  0 <= level -> level < 1 ->
  set_sparsity_level level None false st = (inr tt, st).
Proof.
  intros Hnil H0 H1. rewrite set_sparsity_level_valid by assumption.
  simpl working_set. rewrite Hnil. simpl.
  unfold after_masks, _set_masks_for_threshold. simpl.
  rewrite with_layers_same. reflexivity.
Qed.

(** X8: the last call wins.  After any call without adaptation, a call with
    a valid level on the same target has the outcome and leaves the layers it
    would have had without the earlier call; in particular repeating a call
    changes nothing. *)
Theorem set_sparsity_level_last_call_wins st level1 level2 target :
  0 <= level2 -> level2 < 1 ->
  let st1 := snd (set_sparsity_level level1 target false st) in
  fst (set_sparsity_level level2 target false st1)
  = fst (set_sparsity_level level2 target false st)
  /\ forall r,
       layers (model (snd (set_sparsity_level level2 target false st1))) r
       = layers (model (snd (set_sparsity_level level2 target false st))) r.
Proof.
  intros H0 H1 st1.
  destruct (set_sparsity_level_frame st level1 target false) as (Hm & Hi & Hf & _).
  fold st1 in Hm, Hi, Hf. cbv zeta in Hm, Hi, Hf.
  assert (Hws : working_set st1 target = working_set st target).
  { destruct target; simpl; [reflexivity | exact Hi]. }
  assert (Hsel : _select_threshold st1 level2 (working_set st target)
                 = _select_threshold st level2 (working_set st target)).
  { apply selector_same_weights; [exact Hf|]. intros r _. apply (Hm r). }
  rewrite !set_sparsity_level_valid by assumption. rewrite Hws, Hsel.
  destruct (_select_threshold st level2 (working_set st target)) as [e | thr2] eqn:Hsel2.
  - (* the selector raises: the pool is empty, and the earlier call wrote nothing *)
    split; [reflexivity|]. intro r. simpl.
    assert (Hsame : layers (model st1) = layers (model st)).
    { destruct (set_sparsity_level_layers st level1 target false)
        as [Heq | (thr1 & H01 & H11 & Hsel1 & _)]; [exact Heq|].
      exfalso.
      destruct (Nat.eq_dec (length (pooled_importance_scores st (working_set st target))) 0)
        as [HN | HN].
      - assert (Hl : working_set st target <> []).
        { intro Hnil. rewrite Hnil in Hsel2. discriminate. }
        rewrite (selector_raises_on_empty_pool st level1 _ Hl HN) in Hsel1. discriminate.
      - destruct (selector_returns_rank st level2 (working_set st target) H0 H1)
          as [thr [Hret _]]; [lia|]. congruence. }
    rewrite Hsame. reflexivity.
  - split; [reflexivity|]. intro r.
    unfold after_masks, _set_masks_for_threshold. simpl.
    rewrite !set_masks_pointwise. rewrite Hf.
    destruct (Hm r) as (Hmod & Hname & Hfr & Hkeep).
    rewrite Hfr, Hmod.
    destruct (frozen (operand (layers (model st) r))) eqn:Fr.
    + apply Hkeep. reflexivity.
    + destruct (existsb (Nat.eqb r) (working_set st target)) eqn:Hex.
      * unfold assign_binary_mask. rewrite Hname, Hmod, Hfr, Fr. reflexivity.
      * apply set_sparsity_level_outside. intro Hin.
        apply existsb_eqb_In in Hin. congruence.
Qed.

(** *** [freeze] *)

(** X9: [freeze] writes frozen flags of managed layers only: the controller,
    the rest of the model, every weight, name and mask, and every layer
    outside the managed list stay as they are; freezing again changes
    nothing. *)
Theorem freeze_footprint st :
  let st1 := snd (freeze st) in
  self st1 = self st
  /\ world (model st1) = world (model st)
  /\ (forall r, module (layers (model st1) r) = module (layers (model st) r)
                /\ module_name (layers (model st1) r) = module_name (layers (model st) r)
                /\ binary_mask (operand (layers (model st1) r))
                   = binary_mask (operand (layers (model st) r)))
  /\ (forall r, ~ In r (sparsified_module_info (self st)) ->
        layers (model st1) r = layers (model st) r)
  /\ (forall r, layers (model (snd (freeze st1))) r = layers (model st1) r).
Proof.
  intro st1. subst st1. unfold freeze. simpl.
  split; [reflexivity|]. split; [reflexivity|]. split; [|split].
  - intro r. rewrite freeze_pointwise.
    destruct (existsb (Nat.eqb r) (sparsified_module_info (self st))); repeat split.
  - intros r Hout. rewrite freeze_pointwise.
    destruct (existsb (Nat.eqb r) (sparsified_module_info (self st))) eqn:Hex;
      [|reflexivity].
    apply existsb_eqb_In in Hex. contradiction.
  - intro r. rewrite !freeze_pointwise.
    destruct (existsb (Nat.eqb r) (sparsified_module_info (self st))); reflexivity.
Qed.

(** *** [statistics] *)

(** The loop of [statistics] over per-layer selector outcomes. *)
Lemma statistics_loop_returns (g : ref -> Result Q) (f : ref -> Q) (name : ref -> string)
    (l : list ref) (acc : list LayerThreshold) :
  (forall r, In r l -> g r = inr (f r)) ->
  fold_left
    (fun acc minfo =>
       match acc with
       | inl e => inl e
       | inr threshold_statistics =>
           match g minfo with
           | inl e => inl e
           | inr threshold =>
               inr (threshold_statistics ++ [mkLayerThreshold (name minfo) threshold])
           end
       end)
    l (inr acc : Result (list LayerThreshold))
  = inr (acc ++ map (fun r => mkLayerThreshold (name r) (f r)) l).
Proof.
  revert acc. induction l as [| a l IH]; intros acc Hg; simpl.
  - now rewrite app_nil_r.
  - rewrite (Hg a (or_introl eq_refl)). rewrite IH.
    + rewrite <- app_assoc. reflexivity.
    + intros r Hr. apply Hg. now right.
Qed.

Lemma statistics_loop_raised (g : ref -> Result Q) (name : ref -> string)
    (l : list ref) (e : exn) :
  fold_left
    (fun acc minfo =>
       match acc with
       | inl e => inl e
       | inr threshold_statistics =>
           match g minfo with
           | inl e => inl e
           | inr threshold =>
               inr (threshold_statistics ++ [mkLayerThreshold (name minfo) threshold])
           end
       end)
    l (inl e : Result (list LayerThreshold))
  = inl e.
Proof. induction l as [| a l IH]; simpl; [reflexivity | exact IH]. Qed.

Lemma statistics_loop_raises (g : ref -> Result Q) (name : ref -> string)
    (l : list ref) (acc : list LayerThreshold) (r : ref) (e : exn) :
  In r l -> g r = inl e ->
  exists e',
    fold_left
      (fun acc minfo =>
         match acc with
         | inl e => inl e
         | inr threshold_statistics =>
             match g minfo with
             | inl e => inl e
             | inr threshold =>
                 inr (threshold_statistics ++ [mkLayerThreshold (name minfo) threshold])
             end
         end)
      l (inr acc : Result (list LayerThreshold))
    = inl e'.
Proof.
  revert acc. induction l as [| a l IH]; intros acc Hin Hg; [destruct Hin|].
  simpl. destruct (g a) as [ea | ta] eqn:Ha.
  - exists ea. apply statistics_loop_raised.
  - destruct Hin as [-> | Hin]; [congruence|]. apply IH; assumption.
Qed.

(** X10: in global mode [statistics] computes one threshold, over all
    layers at the model's current sparsity rate, and reports it for every
    layer, in the order of the layer list and under each layer's name; it
    raises exactly when that one selection raises. *)
Theorem statistics_global st :
  _mode (self st) = "global"%string ->
  statistics st
  = match _select_threshold st
            (sparsity_rate_for_sparsified_modules (layers (model st))
               (sparsified_module_info (self st)) None)
            (sparsified_module_info (self st)) with
    | inl e => inl e
    | inr t =>
        inr [("magnitude_sparsity"%string,
              mkStatistics
                (_calculate_sparsified_model_stats (layers (model st))
                   (sparsified_module_info (self st)))
                (map (layer_threshold_entry st (fun _ => t))
                   (sparsified_module_info (self st))))]
    end.
Proof.
  intro Hmode. unfold statistics. rewrite Hmode. simpl String.eqb. cbv iota.
  destruct (_select_threshold st
              (sparsity_rate_for_sparsified_modules (layers (model st))
                 (sparsified_module_info (self st)) None)
              (sparsified_module_info (self st))) as [e | t]; [reflexivity|].
  rewrite (statistics_loop_returns (fun _ => inr t) (fun _ => t)
             (fun r => module_name (layers (model st) r))
             (sparsified_module_info (self st)) [] (fun _ _ => eq_refl)).
  reflexivity.
Qed.

(** X11: in any other mode [statistics] selects one threshold per layer,
    over that layer alone at that layer's own sparsity rate; when every
    selection returns it reports them in the order of the layer list, and
    when one raises it raises. *)
Theorem statistics_per_layer st :
  _mode (self st) <> "global"%string ->
  (forall f : ref -> Q,
      (forall r, In r (sparsified_module_info (self st)) ->
         _select_threshold st
           (sparsity_rate_for_sparsified_modules (layers (model st))
              (sparsified_module_info (self st)) (Some r)) [r] = inr (f r)) ->
      statistics st
      = inr [("magnitude_sparsity"%string,
              mkStatistics
                (_calculate_sparsified_model_stats (layers (model st))
                   (sparsified_module_info (self st)))
                (map (layer_threshold_entry st f) (sparsified_module_info (self st))))])
  /\ (forall r e,
        In r (sparsified_module_info (self st)) ->
        _select_threshold st
          (sparsity_rate_for_sparsified_modules (layers (model st))
             (sparsified_module_info (self st)) (Some r)) [r] = inl e ->
        exists e', statistics st = inl e').
Proof.
  intro Hmode. apply String.eqb_neq in Hmode. unfold statistics. rewrite Hmode.
  cbv iota. split.
  - intros f Hf.
    rewrite (statistics_loop_returns
               (fun minfo =>
                  _select_threshold st
                    (sparsity_rate_for_sparsified_modules (layers (model st))
                       (sparsified_module_info (self st)) (Some minfo)) [minfo])
               f (fun r => module_name (layers (model st) r))
               (sparsified_module_info (self st)) [] Hf).
    reflexivity.
  - intros r e Hin Hsel.
    destruct (statistics_loop_raises
                (fun minfo =>
                   _select_threshold st
                     (sparsity_rate_for_sparsified_modules (layers (model st))
                        (sparsified_module_info (self st)) (Some minfo)) [minfo])
                (fun r => module_name (layers (model st) r))
                (sparsified_module_info (self st)) [] r e Hin Hsel) as [e' He'].
    exists e'. rewrite He'. reflexivity.
Qed.

(** *** Construction *)

(** What a returning constructor has done. *)
Lemma init_returned (target_model : Model World) (infos : list ref) (config : Config)
    (self' : Controller BnAlgo) (m' : Model World) :
  let params := dict_get (cfg_params config) empty_params in
  let mode := dict_get (sparsity_level_setting_mode params) "global"%string in
  let init := dict_get (cfg_sparsity_init config) 0 in
  __init__ target_model infos config = (inr self', m') ->
  exists thr,
    WEIGHT_IMPORTANCE_FUNCTIONS (dict_get (weight_importance params) "normed_abs"%string)
    = Some (_weight_importance_fn self')
    /\ sparsified_module_info self' = infos
    /\ _mode self' = mode
    /\ _bn_adaptation self' = None
    /\ (mode = "global"%string ->
        exists cls s,
          SPARSITY_SCHEDULERS_get (dict_get (schedule params) "polynomial"%string) = inr cls
          /\ cls (params_set_sparsity_init params init) = inr s
          /\ _scheduler self' = Some s
          /\ _config self'
             = match cfg_params config with
               | Some _ => mkConfig (Some (params_set_sparsity_init params init))
                             (cfg_sparsity_init config)
               | None => config
               end)
    /\ (mode <> "global"%string -> _scheduler self' = None /\ _config self' = config)
    /\ _select_threshold (mkState self' target_model) init infos = inr thr
    /\ m' = model (after_masks (mkState self' target_model) thr infos).
Proof.
  intros params mode init Hret. unfold __init__ in Hret.
  fold params in Hret. fold mode in Hret. fold init in Hret.
  destruct (WEIGHT_IMPORTANCE_FUNCTIONS
              (dict_get (weight_importance params) "normed_abs"%string)) as [fn |];
    [| discriminate].
  destruct (String.eqb mode "global") eqn:Hmode.
  - apply String.eqb_eq in Hmode.
    destruct (SPARSITY_SCHEDULERS_get (dict_get (schedule params) "polynomial"%string))
      as [e | cls] eqn:Hreg; [discriminate|].
    destruct (cls (params_set_sparsity_init params init)) as [e | s] eqn:Hcls;
      [discriminate|].
    match type of Hret with
    | context [set_sparsity_level init None false ?s0] =>
        destruct (set_sparsity_level init None false s0) as [[e | u] st'] eqn:Hcall;
          [discriminate|]
    end.
    injection Hret as <- <-.
    destruct (set_sparsity_level_returned _ _ _ _ _ Hcall) as (_ & _ & thr & Hsel & ->).
    exists thr. rewrite after_masks_self. simpl.
    do 4 (split; [reflexivity|]).
    split.
    { intros _. exists cls, s. repeat split; try reflexivity; assumption. }
    split; [intro Hne; contradiction|].
    split; [exact Hsel | reflexivity].
  - apply String.eqb_neq in Hmode.
    match type of Hret with
    | context [set_sparsity_level init None false ?s0] =>
        destruct (set_sparsity_level init None false s0) as [[e | u] st'] eqn:Hcall;
          [discriminate|]
    end.
    injection Hret as <- <-.
    destruct (set_sparsity_level_returned _ _ _ _ _ Hcall) as (_ & _ & thr & Hsel & ->).
    exists thr. rewrite after_masks_self. simpl.
    do 4 (split; [reflexivity|]).
    split; [intro Heq; contradiction|].
    split; [intros _; split; reflexivity|].
    split; [exact Hsel | reflexivity].
Qed.

(** X12: construction is all or nothing for the model.  When the
    constructor raises, whatever the reason, the model is as it was given;
    when it returns, only masks were written: weights, names, frozen flags,
    the entries of frozen layers and the rest of the model are as given. *)
Theorem init_leaves_model (target_model : Model World) (infos : list ref) (config : Config) :
  (forall e m', __init__ target_model infos config = (inl e, m') -> m' = target_model)
  /\ (forall self' m', __init__ target_model infos config = (inr self', m') ->
        mask_update (layers target_model) (layers m')
        /\ world m' = world target_model).
Proof.
  split.
  - intros e m' Hret.
    pose proof (init_unfold target_model infos config) as Hu. cbv zeta in Hu.
    destruct (WEIGHT_IMPORTANCE_FUNCTIONS _) as [fn |].
    2:{ destruct Hu as [e0 He0]. congruence. }
    destruct Hu as [[e0 [He0 _]] | (config' & scheduler & _ & _ & Heq)]; [congruence|].
    rewrite Heq in Hret.
    match type of Hret with
    | context [set_sparsity_level ?i None false ?s0] =>
        destruct (set_sparsity_level i None false s0) as [[e1 | u] st'] eqn:Hcall;
          [|discriminate]
    end.
    injection Hret as _ <-.
    rewrite (set_sparsity_level_raised _ _ _ _ _ Hcall). reflexivity.
  - intros self' m' Hret.
    destruct (init_returned target_model infos config self' m' Hret)
      as (thr & _ & _ & _ & _ & _ & _ & _ & ->).
    split; [apply set_masks_mask_update | reflexivity].
Qed.

(** X13: in global mode a returning constructor has built the scheduler
    from the scheduler class of the configured schedule ('polynomial' when the
    key is absent), called on the parameters with [sparsity_init] written into
    them; the write lands in the configuration's own ['params'] dictionary
    when it has one, and the adaptation algorithm is not built yet. *)
Theorem init_global_scheduler (target_model : Model World) (infos : list ref)
    (config : Config) (self' : Controller BnAlgo) (m' : Model World) :
  let params := dict_get (cfg_params config) empty_params in
  let init := dict_get (cfg_sparsity_init config) 0 in
  dict_get (sparsity_level_setting_mode params) "global"%string = "global"%string ->
  __init__ target_model infos config = (inr self', m') ->
  (exists cls s,
      SPARSITY_SCHEDULERS_get (dict_get (schedule params) "polynomial"%string) = inr cls
      /\ cls (params_set_sparsity_init params init) = inr s
      /\ _scheduler self' = Some s)
  /\ _config self'
     = match cfg_params config with
       | Some _ => mkConfig (Some (params_set_sparsity_init params init))
                     (cfg_sparsity_init config)
       | None => config
       end
  /\ _bn_adaptation self' = None
  /\ _mode self' = "global"%string.
Proof.
  intros params init Hmode Hret.
  destruct (init_returned target_model infos config self' m' Hret)
    as (thr & _ & _ & Hm & Hbn & Hglobal & _).
  fold params in Hm, Hglobal. fold init in Hglobal.
  destruct (Hglobal Hmode) as (cls & s & Hreg & Hcls & Hs & Hc).
  split; [exists cls, s; repeat split; assumption|].
  split; [exact Hc|]. split; [exact Hbn|]. rewrite Hm. exact Hmode.
Qed.

(** *** [compression_stage] over the lifetime *)

(** X14: after a construction in global mode, [compression_stage] returns
    a stage, and never raises, after every sequence of calls. *)
Theorem compression_stage_global_returns (target_model : Model World) (infos : list ref)
    (config : Config) (self' : Controller BnAlgo) (m' : Model World) (calls : list Call) :
  dict_get (sparsity_level_setting_mode (dict_get (cfg_params config) empty_params))
    "global"%string = "global"%string ->
  __init__ target_model infos config = (inr self', m') ->
  exists stage, compression_stage (run_calls (mkState self' m') calls) = inr stage.
Proof.
  intros Hmode Hret.
  destruct (init_returned target_model infos config self' m' Hret)
    as (thr & _ & _ & Hm & _ & Hglobal & _).
  destruct (Hglobal Hmode) as (cls & s & _ & _ & Hs & _).
  destruct (run_calls_frame calls (mkState self' m')) as (_ & _ & Hmo & Hsch).
  cbv zeta in Hmo, Hsch. simpl in Hmo, Hsch.
  unfold compression_stage. rewrite Hmo, Hsch, Hm, Hmode, Hs. simpl.
  destruct (Qeq_bool (current_sparsity_level s) 0); [eexists; reflexivity|].
  destruct (Qle_bool (target_level s) (current_sparsity_level s)); eexists; reflexivity.
Qed.

(** X15: the mode is not validated.  A mode that is neither 'global' nor
    'local' lets the constructor return, without a scheduler, and from then
    on [compression_stage] raises AttributeError after every sequence of
    calls. *)
Theorem compression_stage_unknown_mode_raises (target_model : Model World)
    (infos : list ref) (config : Config) (self' : Controller BnAlgo) (m' : Model World)
    (calls : list Call) :
  let mode := dict_get (sparsity_level_setting_mode (dict_get (cfg_params config) empty_params))
                "global"%string in
  mode <> "global"%string -> mode <> "local"%string ->
  __init__ target_model infos config = (inr self', m') ->
  compression_stage (run_calls (mkState self' m') calls)
  = inl (AttributeError (NoneTypeHasNoAttribute "current_sparsity_level")).
Proof.
  intros mode Hng Hnl Hret.
  destruct (init_returned target_model infos config self' m' Hret)
    as (thr & _ & _ & Hm & _ & _ & Hother & _).
  destruct (Hother Hng) as [Hs _].
  destruct (run_calls_frame calls (mkState self' m')) as (_ & _ & Hmo & Hsch).
  cbv zeta in Hmo, Hsch. simpl in Hmo, Hsch.
  unfold compression_stage. rewrite Hmo, Hsch, Hm, Hs.
  fold mode. apply String.eqb_neq in Hnl. rewrite Hnl. reflexivity.
Qed.

(** *** The adaptation algorithm object *)

(** X16: the adaptation algorithm is built on first use and then kept.
    With an algorithm already stored, the adaptation step does not call the
    constructor and keeps the stored object; with none stored, a constructor
    that returns has its object stored, whether the run then raises or not,
    and a constructor that raises makes the step raise with the state
    untouched, so that a later call builds again. *)
Theorem bn_adaptation_built_on_first_use st :
  (forall a, _bn_adaptation (self st) = Some a ->
     (forall constructor,
         @_run_batchnorm_adaptation _ _ _ (with_bn_constructor E constructor) st
         = _run_batchnorm_adaptation st)
     /\ _bn_adaptation (self (snd (_run_batchnorm_adaptation st))) = Some a)
  /\ (forall a, _bn_adaptation (self st) = None ->
        BatchnormAdaptationAlgorithm (_config (self st)) = inr a ->
        _bn_adaptation (self (snd (_run_batchnorm_adaptation st))) = Some a)
  /\ (forall e, _bn_adaptation (self st) = None ->
        BatchnormAdaptationAlgorithm (_config (self st)) = inl e ->
        _run_batchnorm_adaptation st = (inl e, st)).
Proof.
  unfold _run_batchnorm_adaptation, bind, get_state, reading, ret. simpl.
  split; [|split].
  - intros a Ha. rewrite Ha. split.
    + intro constructor. reflexivity.
    + destruct (bn_adaptation_run a (layers (model st)) (world (model st))). exact Ha.
  - intros a Hnone Hctor. rewrite Hnone, Hctor. simpl.
    destruct (bn_adaptation_run a (layers (model st)) (world (model st))). reflexivity.
  - intros e Hnone Hctor. rewrite Hnone, Hctor. reflexivity.
Qed.

(** *** Achieved sparsity *)

(** The masks a call leaves on unfrozen layers, as a function of the pool. *)
Lemma masks_after_call st level target (run : bool) thr :
  0 <= level -> level < 1 ->
  _select_threshold st level (working_set st target) = inr thr ->
  (forall r, In r (working_set st target) ->
     frozen (operand (layers (model st) r)) = false) ->
  masks_of (snd (set_sparsity_level level target run st)) (working_set st target)
  = map (fun s => if Qlt_bool thr s then 1 else 0)
      (pooled_importance_scores st (working_set st target)).
Proof.
  intros H0 H1 Hsel Hall. unfold masks_of, pooled_importance_scores.
  rewrite <- flat_map_map_inner. apply flat_map_ext_in. intros r Hr.
  rewrite (set_sparsity_level_unfrozen st level target run thr r H0 H1 Hsel Hr (Hall r Hr)).
  reflexivity.
Qed.

(** X17: the sparsity a call achieves.  With a level in [0,1), an element
    in the pool and no frozen layer in the working set, the masks of the
    working set have one element per pooled score, and at least
    floor((N-1) * level) + 1 of them are 0: the element holding the threshold
    is dropped too, so even level 0 drops a weight.  (The mask function is
    the one of section 4.3 of the specification.) *)
Theorem set_sparsity_level_achieved_sparsity st level target (run : bool) :
  0 <= level -> level < 1 ->
  (1 <= length (pooled_importance_scores st (working_set st target)))%nat ->
  (forall r, In r (working_set st target) ->
     frozen (operand (layers (model st) r)) = false) ->
  let st' := snd (set_sparsity_level level target run st) in
  let N := length (pooled_importance_scores st (working_set st target)) in
  length (masks_of st' (working_set st target)) = N
  /\ (Z.to_nat (threshold_rank N level) + 1
      <= count_zeros (masks_of st' (working_set st target)))%nat.
Proof.
  intros H0 H1 HN Hall st' N. subst st' N.
  destruct (selector_returns_rank st level (working_set st target) H0 H1 HN)
    as [thr [Hsel Hnth]].
  rewrite (masks_after_call st level target run thr H0 H1 Hsel Hall).
  split; [apply length_map|].
  unfold count_zeros. rewrite filter_map_swap, length_map.
  rewrite (filter_ext _ (fun s => Qle_bool s thr) (mask_element_zero thr)).
  pose proof (tensor_sort_perm (pooled_importance_scores st (working_set st target)))
    as Hperm.
  rewrite (filter_length_perm _ _ _ Hperm).
  apply (sorted_count_at_most _ (tensor_sort_sorted _) _ thr Hnth).
Qed.

(** X18: raising the level only drops more.  For two levels of [0,1) in
    order, on the same state and target, every element an unfrozen layer of
    the working set keeps at the higher level it keeps at the lower level.
    (The mask function is the one of section 4.3 of the specification.) *)
Theorem masks_shrink_with_level st level1 level2 target (run1 run2 : bool)
    (r : ref) (i : nat) :
  0 <= level1 -> level1 <= level2 -> level2 < 1 ->
  (1 <= length (pooled_importance_scores st (working_set st target)))%nat ->
  In r (working_set st target) ->
  frozen (operand (layers (model st) r)) = false ->
  nth_error (data (binary_mask (operand (layers (model
     (snd (set_sparsity_level level2 target run2 st))) r)))) i = Some 1 ->
  nth_error (data (binary_mask (operand (layers (model
     (snd (set_sparsity_level level1 target run1 st))) r)))) i = Some 1.
Proof.
  intros H0 H12 H1 HN Hin Hfr.
  destruct (selector_monotone st level1 level2 (working_set st target) H0 H12
              (Qlt_le_weak _ _ H1) HN) as (thr1 & thr2 & Hsel1 & Hsel2 & Hle).
  rewrite (set_sparsity_level_unfrozen st level2 target run2 thr2 r
             (Qle_trans _ _ _ H0 H12) H1 Hsel2 Hin Hfr).
  rewrite (set_sparsity_level_unfrozen st level1 target run1 thr1 r
             H0 (Qle_lt_trans _ _ _ H12 H1) Hsel1 Hin Hfr).
  unfold calc_magnitude_binary_mask. simpl. rewrite !nth_error_map.
  destruct (nth_error (data (_weight_importance_fn (self st)
                               (weight (module (layers (model st) r))))) i) as [s |];
    [|discriminate].
  simpl. destruct (Qlt_bool thr2 s) eqn:H2; [|discriminate].
  intros _. apply Qlt_bool_iff in H2.
  assert (Hlt : Qlt_bool thr1 s = true).
  { apply Qlt_bool_iff. eapply Qle_lt_trans; eassumption. }
  rewrite Hlt. reflexivity.
Qed.

End ControllerProperties.

(* ================================================================== *)
(** ** The further properties at concrete inputs *)

Lemma Qthree_quarters_in_range : 0 <= 3 # 4 /\ 3 # 4 < 1.
Proof. split; [discriminate | reflexivity]. Qed.

Lemma demo_pool_has_elements :
  (1 <= length (pooled_importance_scores (demo_state "local" None [0%nat]) [0%nat]))%nat.
Proof. simpl. lia. Qed.

Lemma demo_global_pool_has_elements :
  (1 <= length (pooled_importance_scores (demo_state "global" None [1%nat; 2%nat])
                  (working_set (demo_state "global" None [1%nat; 2%nat]) None)))%nat.
Proof. simpl. lia. Qed.

Lemma select_threshold_extremes_witness :
  (1 <= length (pooled_importance_scores (demo_state "local" None [0%nat]) [0%nat]))%nat
  /\ (exists lo, _select_threshold (demo_state "local" None [0%nat]) 0 [0%nat] = inr lo
                 /\ lo <= 3)
  /\ (exists hi, _select_threshold (demo_state "local" None [0%nat]) 1 [0%nat] = inr hi
                 /\ 3 <= hi).
Proof.
  split; [exact demo_pool_has_elements|].
  destruct (select_threshold_extremes (demo_state "local" None [0%nat]) [0%nat]
              demo_pool_has_elements)
    as [(lo & Hlo & _ & Hmin) (hi & Hhi & _ & Hmax)].
  split.
  - exists lo. split; [exact Hlo | apply Hmin; left; reflexivity].
  - exists hi. split; [exact Hhi | apply Hmax; left; reflexivity].
Defined.

Lemma select_threshold_is_a_score_witness :
  ([0%nat] <> []
   /\ _select_threshold (demo_state "local" None [0%nat]) (1 # 2) [0%nat] = inr 2)
  /\ exists r i, In r [0%nat]
       /\ nth_error (layer_scores (demo_state "local" None [0%nat]) r) i = Some 2.
Proof.
  assert (Hl : [0%nat] <> []) by discriminate.
  split; [split; [exact Hl | reflexivity]|].
  exact (select_threshold_is_a_score (demo_state "local" None [0%nat]) (1 # 2) [0%nat] 2
           Hl eq_refl).
Defined.

Lemma select_threshold_monotone_witness :
  (0 <= 1 # 4 /\ 1 # 4 <= 3 # 4 /\ 3 # 4 <= 1
   /\ (1 <= length (pooled_importance_scores (demo_state "local" None [0%nat]) [0%nat]))%nat)
  /\ exists thr1 thr2,
       _select_threshold (demo_state "local" None [0%nat]) (1 # 4) [0%nat] = inr thr1
       /\ _select_threshold (demo_state "local" None [0%nat]) (3 # 4) [0%nat] = inr thr2
       /\ thr1 <= thr2.
Proof.
  assert (H0 : 0 <= 1 # 4) by discriminate.
  assert (H12 : 1 # 4 <= 3 # 4) by discriminate.
  assert (H1 : 3 # 4 <= 1) by discriminate.
  split; [repeat split; assumption || exact demo_pool_has_elements|].
  exact (select_threshold_monotone (demo_state "local" None [0%nat]) (1 # 4) (3 # 4)
           [0%nat] H0 H12 H1 demo_pool_has_elements).
Defined.


Lemma select_threshold_reads_weights_only_witness :
  (_weight_importance_fn (self (demo_state "global" (Some idle_scheduler) [0%nat; 3%nat]))
   = _weight_importance_fn (self (demo_state "local" None [0%nat])))
  /\ _select_threshold
       (snd (@freeze nat unit (demo_state "global" (Some idle_scheduler) [0%nat; 3%nat])))
       (1 # 2) [0%nat]
     = _select_threshold (demo_state "local" None [0%nat]) (1 # 2) [0%nat].
Proof.
  split; [reflexivity|].
  apply (select_threshold_reads_weights_only (demo_state "local" None [0%nat])
           (snd (@freeze nat unit
                   (demo_state "global" (Some idle_scheduler) [0%nat; 3%nat])))
           (1 # 2) [0%nat] eq_refl).
  intros r [<- | []]. reflexivity.
Defined.

Lemma set_sparsity_level_without_layers_witness :
  (sparsified_module_info (self (demo_state "global" None [])) = []
   /\ 0 <= 1 # 2 /\ 1 # 2 < 1)
  /\ @set_sparsity_level _ _ _ demo_externals (1 # 2) None false (demo_state "global" None [])
     = (inr tt, demo_state "global" None []).
Proof.
  split; [split; [reflexivity | exact Qhalf_in_range]|].
  exact (@set_sparsity_level_without_layers nat unit unit demo_externals
           (demo_state "global" None []) (1 # 2) eq_refl
           (proj1 Qhalf_in_range) (proj2 Qhalf_in_range)).
Defined.

Lemma set_sparsity_level_last_call_wins_witness :
  (0 <= 1 # 4 /\ 1 # 4 < 1)
  /\ layers (model
       (snd (@set_sparsity_level _ _ _ demo_externals (1 # 4) None false
               (snd (@set_sparsity_level _ _ _ demo_externals (3 # 4) None false
                       (demo_state "global" None [1%nat; 2%nat])))))) 2%nat
     = layers (model
         (snd (@set_sparsity_level _ _ _ demo_externals (1 # 4) None false
                 (demo_state "global" None [1%nat; 2%nat])))) 2%nat.
Proof.
  split; [exact Qquarter_in_range|].
  exact (proj2 (@set_sparsity_level_last_call_wins nat unit unit demo_externals
                  (demo_state "global" None [1%nat; 2%nat]) (3 # 4) (1 # 4) None
                  (proj1 Qquarter_in_range) (proj2 Qquarter_in_range))
           2%nat).
Defined.

Lemma statistics_global_witness :
  _mode (self (demo_state "global" None [1%nat; 2%nat])) = "global"%string
  /\ @statistics _ _ _ demo_externals (demo_state "global" None [1%nat; 2%nat])
     = inr [("magnitude_sparsity"%string,
             mkStatistics tt [mkLayerThreshold "fc_a" 1; mkLayerThreshold "fc_b" 1])].
Proof.
  split; [reflexivity|].
  rewrite (@statistics_global nat unit unit demo_externals
             (demo_state "global" None [1%nat; 2%nat]) eq_refl).
  reflexivity.
Defined.

Lemma statistics_per_layer_witness :
  _mode (self (demo_state "local" None [0%nat; 3%nat])) <> "global"%string
  /\ @statistics _ _ _ demo_externals (demo_state "local" None [0%nat; 3%nat])
     = inr [("magnitude_sparsity"%string,
             mkStatistics tt [mkLayerThreshold "conv1" 0; mkLayerThreshold "head" 1])].
Proof.
  assert (Hmode : _mode (self (demo_state "local" None [0%nat; 3%nat])) <> "global"%string)
    by discriminate.
  split; [exact Hmode|].
  rewrite (proj1 (@statistics_per_layer nat unit unit demo_externals
                    (demo_state "local" None [0%nat; 3%nat]) Hmode)
             (fun r => match r with 0%nat => 0 | _ => 1 end)).
  - reflexivity.
  - intros r [<- | [<- | []]]; reflexivity.
Defined.

Lemma init_global_scheduler_witness :
  dict_get (sparsity_level_setting_mode
              (dict_get (cfg_params (demo_config "global" (Some (1 # 2)))) empty_params))
    "global"%string = "global"%string
  /\ exists self' m',
       @__init__ _ _ _ demo_externals demo_model [0%nat; 3%nat]
         (demo_config "global" (Some (1 # 2))) = (inr self', m')
       /\ (exists s, _scheduler self' = Some s)
       /\ _bn_adaptation self' = None.
Proof.
  split; [reflexivity|].
  eexists. eexists. split; [reflexivity|].
  pose proof (@init_global_scheduler nat unit unit demo_externals demo_model
                [0%nat; 3%nat] (demo_config "global" (Some (1 # 2))) _ _ eq_refl eq_refl)
    as ((cls & s & _ & _ & Hs) & _ & Hbn & _).
  split; [exists s; exact Hs | exact Hbn].
Defined.

Lemma compression_stage_global_returns_witness :
  dict_get (sparsity_level_setting_mode
              (dict_get (cfg_params (demo_config "global" (Some (1 # 2)))) empty_params))
    "global"%string = "global"%string
  /\ exists self' m',
       @__init__ _ _ _ demo_externals demo_model [0%nat; 3%nat]
         (demo_config "global" (Some (1 # 2))) = (inr self', m')
       /\ exists stage,
            compression_stage
              (@run_calls _ _ _ demo_externals (mkState self' m')
                 [CallFreeze; CallSetSparsityLevel (1 # 4) None true])
            = inr stage.
Proof.
  split; [reflexivity|].
  eexists. eexists. split; [reflexivity|].
  exact (@compression_stage_global_returns nat unit unit demo_externals demo_model
           [0%nat; 3%nat] (demo_config "global" (Some (1 # 2))) _ _
           [CallFreeze; CallSetSparsityLevel (1 # 4) None true] eq_refl eq_refl).
Defined.

Lemma compression_stage_unknown_mode_raises_witness :
  ("Local"%string <> "global"%string /\ "Local"%string <> "local"%string)
  /\ exists self' m',
       @__init__ _ _ _ demo_externals demo_model [0%nat; 3%nat]
         (demo_config "Local" (Some (1 # 4))) = (inr self', m')
       /\ compression_stage
            (@run_calls _ _ _ demo_externals (mkState self' m')
               [CallSetSparsityLevel (1 # 2) None false])
          = inl (AttributeError (NoneTypeHasNoAttribute "current_sparsity_level")).
Proof.
  assert (Hng : "Local"%string <> "global"%string) by discriminate.
  assert (Hnl : "Local"%string <> "local"%string) by discriminate.
  split; [split; assumption|].
  eexists. eexists. split; [reflexivity|].
  exact (@compression_stage_unknown_mode_raises nat unit unit demo_externals demo_model
           [0%nat; 3%nat] (demo_config "Local" (Some (1 # 4))) _ _
           [CallSetSparsityLevel (1 # 2) None false] Hng Hnl eq_refl).
Defined.

Lemma set_sparsity_level_achieved_sparsity_witness :
  (0 <= 1 # 4 /\ 1 # 4 < 1
   /\ (1 <= length (pooled_importance_scores (demo_state "global" None [1%nat; 2%nat])
                      (working_set (demo_state "global" None [1%nat; 2%nat]) None)))%nat
   /\ frozen (operand (layers (model (demo_state "global" None [1%nat; 2%nat])) 1%nat)) = false
   /\ frozen (operand (layers (model (demo_state "global" None [1%nat; 2%nat])) 2%nat)) = false)
  /\ length (masks_of
               (snd (@set_sparsity_level _ _ _ demo_externals (1 # 4) None true
                       (demo_state "global" None [1%nat; 2%nat])))
               [1%nat; 2%nat]) = 4%nat
  /\ (1 <= count_zeros
             (masks_of
                (snd (@set_sparsity_level _ _ _ demo_externals (1 # 4) None true
                        (demo_state "global" None [1%nat; 2%nat])))
                [1%nat; 2%nat]))%nat.
Proof.
  split.
  { split; [apply Qquarter_in_range|]. split; [apply Qquarter_in_range|].
    split; [exact demo_global_pool_has_elements | split; reflexivity]. }
  apply (@set_sparsity_level_achieved_sparsity nat unit unit demo_externals
           (demo_state "global" None [1%nat; 2%nat]) (1 # 4) None true
           (proj1 Qquarter_in_range) (proj2 Qquarter_in_range)
           demo_global_pool_has_elements).
  intros r [<- | [<- | []]]; reflexivity.
Defined.

Lemma masks_shrink_with_level_witness :
  (0 <= 1 # 4 /\ 1 # 4 <= 1 # 2 /\ 1 # 2 < 1
   /\ In 0%nat (working_set (demo_state "local" None [0%nat]) None)
   /\ frozen (operand (layers (model (demo_state "local" None [0%nat])) 0%nat)) = false
   /\ nth_error (data (binary_mask (operand (layers (model
        (snd (@set_sparsity_level _ _ _ demo_externals (1 # 2) None false
                (demo_state "local" None [0%nat])))) 0%nat)))) 0 = Some 1)
  /\ nth_error (data (binary_mask (operand (layers (model
       (snd (@set_sparsity_level _ _ _ demo_externals (1 # 4) None true
               (demo_state "local" None [0%nat])))) 0%nat)))) 0 = Some 1.
Proof.
  assert (H12 : 1 # 4 <= 1 # 2) by discriminate.
  split.
  { split; [apply Qquarter_in_range|]. split; [exact H12|]. split; [apply Qhalf_in_range|].
    split; [left; reflexivity | split; reflexivity]. }
  exact (@masks_shrink_with_level nat unit unit demo_externals
           (demo_state "local" None [0%nat]) (1 # 4) (1 # 2) None true false 0%nat 0%nat
           (proj1 Qquarter_in_range) H12 (proj2 Qhalf_in_range)
           demo_pool_has_elements (or_introl eq_refl) eq_refl eq_refl).
Defined.

(* ================================================================== *)
(** ** The selector outside the interval, and adaptation on success *)



Section SelectorOutsideInterval.
Context {World BnAlgo : Type}.
Implicit Types (st : State World BnAlgo) (level : Q).


End SelectorOutsideInterval.

Section AdaptationOnSuccess.
Context {World BnAlgo ModelStats : Type} {E : Externals World BnAlgo ModelStats}.
Implicit Types (st : State World BnAlgo) (target : option ref) (level thr : Q).

(** X20: a call that asks for adaptation runs the routine on the model
    with the new masks in place.  With a valid level, a selected threshold
    and an algorithm object stored or built by the constructor, the outcome of
    the call is the outcome of the routine run on the layers the mask step
    left and on the rest of the model as it was; the call leaves those layers,
    the rest of the model as the routine left it, and the algorithm stored. *)
Theorem set_sparsity_level_adaptation_sees_masks st level target thr (a : BnAlgo) :
  0 <= level -> level < 1 ->
  _select_threshold st level (working_set st target) = inr thr ->
  (_bn_adaptation (self st) = Some a
   \/ (_bn_adaptation (self st) = None
       /\ BatchnormAdaptationAlgorithm (_config (self st)) = inr a)) ->
  let masked := layers (model (after_masks st thr (working_set st target))) in
  let ran := bn_adaptation_run a masked (world (model st)) in
  let st' := snd (set_sparsity_level level target true st) in
  fst (set_sparsity_level level target true st) = fst ran
  /\ layers (model st') = masked
  /\ world (model st') = snd ran
  /\ _bn_adaptation (self st') = Some a.
Proof.
  intros H0 H1 Hsel Halgo masked ran st'. subst st' ran masked.
  rewrite set_sparsity_level_valid by assumption. rewrite Hsel.
  unfold _run_batchnorm_adaptation, bind, get_state, reading, ret, after_masks,
    _set_masks_for_threshold.
  simpl.
  destruct Halgo as [Ha | [Hnone Hctor]].
  - rewrite Ha. simpl.
    match goal with
    | |- context [bn_adaptation_run a ?h ?w] =>
        destruct (bn_adaptation_run a h w) as [outcome w']
    end.
    simpl. repeat split. exact Ha.
  - rewrite Hnone. simpl. rewrite Hctor. simpl.
    match goal with
    | |- context [bn_adaptation_run a ?h ?w] =>
        destruct (bn_adaptation_run a h w) as [outcome w']
    end.
    simpl. repeat split.
Qed.

End AdaptationOnSuccess.


Lemma set_sparsity_level_adaptation_sees_masks_witness :
  (0 <= 1 # 4 /\ 1 # 4 < 1
   /\ _select_threshold (demo_state "global" None [1%nat; 2%nat]) (1 # 4) [1%nat; 2%nat]
      = inr 1
   /\ _bn_adaptation (self (demo_state "global" None [1%nat; 2%nat])) = None
   /\ @BatchnormAdaptationAlgorithm _ _ _ demo_externals
        (_config (self (demo_state "global" None [1%nat; 2%nat]))) = inr tt)
  /\ fst (@set_sparsity_level _ _ _ demo_externals (1 # 4) None true
            (demo_state "global" None [1%nat; 2%nat])) = inr tt
  /\ world (model (snd (@set_sparsity_level _ _ _ demo_externals (1 # 4) None true
                          (demo_state "global" None [1%nat; 2%nat])))) = 1%nat
  /\ _bn_adaptation (self (snd (@set_sparsity_level _ _ _ demo_externals (1 # 4) None true
                                  (demo_state "global" None [1%nat; 2%nat])))) = Some tt.
Proof.
  split.
  { split; [apply Qquarter_in_range|]. split; [apply Qquarter_in_range|].
    split; [reflexivity | split; reflexivity]. }
  destruct (@set_sparsity_level_adaptation_sees_masks nat unit unit demo_externals
              (demo_state "global" None [1%nat; 2%nat]) (1 # 4) None 1 tt
              (proj1 Qquarter_in_range) (proj2 Qquarter_in_range) eq_refl
              (or_intror (conj eq_refl eq_refl)))
    as (Hout & _ & Hworld & Hbn).
  split; [exact Hout|]. split; [exact Hworld | exact Hbn].
Defined.
